(** * ST7920 character-display driver (driver_st7920.cpp)

    A shallow embedding of the driver for a 128*64 LCD module with an
    ST7920 controller, and the properties of its instruction encoding,
    instruction-set tracking, cursor addressing, display flags and
    half-width text output.

    The driver keeps four file-scope variables and talks to the hardware
    through [SPI.transfer], [delayMicroseconds] and [delay].  A driver
    function is embedded as a computation that reads and updates the four
    variables and returns, in program order, the hardware events it caused. *)

From Stdlib Require Import ZArith List Ascii String Bool Lia Btauto.
From coqutil Require Import Z.bitblast.
Import ListNotations.

Local Open Scope Z_scope.

(** ** Machine integers

    [short] is a 16-bit two's-complement integer, [byte] is [uint8_t].
    A value computed at [int] width is converted when it is passed to a
    parameter of one of these types. *)

Definition to_short (z : Z) : Z := (z + 32768) mod 65536 - 32768.

Definition to_byte (z : Z) : Z := z mod 256.

(** ** Hardware events *)

Inductive bit_order : Type := LSBFIRST | MSBFIRST.

Inductive spi_mode : Type := SPI_MODE0 | SPI_MODE1 | SPI_MODE2 | SPI_MODE3.

Inductive event : Type :=
| SPI_begin
| SPI_beginTransaction (clock : Z) (order : bit_order) (mode : spi_mode)
| SPI_transfer (data : Z)
| DelayMicroseconds (us : Z)
| Delay (ms : Z)
| Enter_setCursor (position : Z).
(** [Enter_setCursor] is no hardware event: it marks, in the trace, each
    entry into [setCursor_ST7920] with the position it received, so that
    calls of that function can be counted and placed among the transfers. *)

Definition is_hardware (e : event) : bool :=
  match e with
  | Enter_setCursor _ => false
  | _ => true
  end.

Definition hardware (t : list event) : list event := filter is_hardware t.

(** ** The file-scope variables *)

Record globals : Type := mkGlobals {
  instructionSet_ST7920 : ascii;         (* 'B' - basic, 'E' - extended *)
  displayStatus_ST7920 : bool;
  underlineCursorStatus_ST7920 : bool;
  blinkCursorStatus_ST7920 : bool
}.

(** The initialisers of lines 6-9. *)
Definition startup : globals :=
  {| instructionSet_ST7920 := "B"%char;
     displayStatus_ST7920 := true;
     underlineCursorStatus_ST7920 := true;
     blinkCursorStatus_ST7920 := true |}.

(** ** The driver monad

    [None] stands for undefined behaviour (an array read past its end). *)

Definition M (A : Type) : Type := globals -> option (A * globals * list event).

Definition ret {A : Type} (a : A) : M A := fun g => Some (a, g, []).

Definition bind {A B : Type} (m : M A) (k : A -> M B) : M B :=
  fun g =>
    match m g with
    | None => None
    | Some (a, g1, t1) =>
        match k a g1 with
        | None => None
        | Some (b, g2, t2) => Some (b, g2, t1 ++ t2)
        end
    end.

Declare Scope driver_scope.
Delimit Scope driver_scope with driver.
Notation "x <- m ;; k" := (bind m (fun x => k))
  (at level 61, m at next level, right associativity) : driver_scope.
Notation "m ;; k" := (bind m (fun _ => k))
  (at level 61, right associativity) : driver_scope.
Local Open Scope driver_scope.

Definition emit (e : event) : M unit := fun g => Some (tt, g, [e]).

Definition undefined {A : Type} : M A := fun _ => None.

Definition get {A : Type} (field : globals -> A) : M A :=
  fun g => Some (field g, g, []).

(** Assignments to the four variables. *)

Definition with_instructionSet (c : ascii) (g : globals) : globals :=
  {| instructionSet_ST7920 := c;
     displayStatus_ST7920 := displayStatus_ST7920 g;
     underlineCursorStatus_ST7920 := underlineCursorStatus_ST7920 g;
     blinkCursorStatus_ST7920 := blinkCursorStatus_ST7920 g |}.

Definition with_displayStatus (b : bool) (g : globals) : globals :=
  {| instructionSet_ST7920 := instructionSet_ST7920 g;
     displayStatus_ST7920 := b;
     underlineCursorStatus_ST7920 := underlineCursorStatus_ST7920 g;
     blinkCursorStatus_ST7920 := blinkCursorStatus_ST7920 g |}.

Definition with_underlineCursorStatus (b : bool) (g : globals) : globals :=
  {| instructionSet_ST7920 := instructionSet_ST7920 g;
     displayStatus_ST7920 := displayStatus_ST7920 g;
     underlineCursorStatus_ST7920 := b;
     blinkCursorStatus_ST7920 := blinkCursorStatus_ST7920 g |}.

Definition with_blinkCursorStatus (b : bool) (g : globals) : globals :=
  {| instructionSet_ST7920 := instructionSet_ST7920 g;
     displayStatus_ST7920 := displayStatus_ST7920 g;
     underlineCursorStatus_ST7920 := underlineCursorStatus_ST7920 g;
     blinkCursorStatus_ST7920 := b |}.

Definition modify (f : globals -> globals) : M unit := fun g => Some (tt, f g, []).

Definition set_instructionSet (c : ascii) : M unit := modify (with_instructionSet c).

Definition set_displayStatus (b : bool) : M unit := modify (with_displayStatus b).

Definition set_underlineCursorStatus (b : bool) : M unit :=
  modify (with_underlineCursorStatus b).

Definition set_blinkCursorStatus (b : bool) : M unit := modify (with_blinkCursorStatus b).

(** ** Arduino primitives *)

(** [SPI.transfer] takes a [uint8_t]; its return value is never used. *)
Definition SPI_transfer_byte (v : Z) : M unit := emit (SPI_transfer (to_byte v)).

Definition delayMicroseconds (us : Z) : M unit := emit (DelayMicroseconds us).

Definition delay (ms : Z) : M unit := emit (Delay ms).

(** ** Transaction encoder (lines 18-24) *)

Definition sendInstruction_ST7920 (arg : Z) : M unit :=
  let instruction := to_short arg in
  SPI_transfer_byte (Z.lor (Z.lor (Z.land (Z.shiftr instruction 8) 0x2)
                                  (Z.land (Z.shiftr instruction 6) 0x4)) 0xF8) ;;
  SPI_transfer_byte (Z.land instruction 0xF0) ;;
  SPI_transfer_byte (Z.land (Z.shiftl instruction 4) 0xF0) ;;
  delayMicroseconds 80.

(** ** Mode tracker (lines 30-38) *)

Definition chooseInstructionSet_ST7920 (choice : ascii) : M unit :=
  current <- get instructionSet_ST7920 ;;
  if (choice =? "E")%char && (current =? "B")%char then
    set_instructionSet "E" ;;
    sendInstruction_ST7920 0x34                    (* 0b0000110100 *)
  else if (choice =? "B")%char && (current =? "E")%char then
    set_instructionSet "B" ;;
    sendInstruction_ST7920 0x30                    (* 0b0000110000 *)
  else ret tt.

(** ** Basic-set instructions (lines 45-78) *)

Definition setEntryMode_ST7920 (mode direction : ascii) : M unit :=
  chooseInstructionSet_ST7920 "B" ;;
  if (mode =? "C")%char && (direction =? "R")%char then sendInstruction_ST7920 0x06
  else if (mode =? "C")%char && (direction =? "L")%char then sendInstruction_ST7920 0x04
  else if (mode =? "D")%char && (direction =? "R")%char then sendInstruction_ST7920 0x05
  else if (mode =? "D")%char && (direction =? "L")%char then sendInstruction_ST7920 0x07
  else ret tt.

Definition moveCursor_ST7920 (direction : ascii) : M unit :=
  chooseInstructionSet_ST7920 "B" ;;
  if (direction =? "R")%char then sendInstruction_ST7920 0x14
  else if (direction =? "L")%char then sendInstruction_ST7920 0x10
  else ret tt.

Definition shiftDisplay_ST7920 (direction : ascii) : M unit :=
  chooseInstructionSet_ST7920 "B" ;;
  if (direction =? "R")%char then sendInstruction_ST7920 0x1C
  else if (direction =? "L")%char then sendInstruction_ST7920 0x18
  else ret tt.

Definition homeCursor_ST7920 : M unit :=
  chooseInstructionSet_ST7920 "B" ;;
  sendInstruction_ST7920 0x02.

(** ** Addressing translator (lines 84-92)

    The parameter is a [byte].  In [0b0010000000 | position + 8] the sum
    binds tighter than the bitwise or. *)

Definition setCursor_ST7920 (arg : Z) : M unit :=
  let position := to_byte arg in
  emit (Enter_setCursor position) ;;
  if ((0 <=? position) && (position <=? 7)) || ((24 <=? position) && (position <=? 31)) then
    sendInstruction_ST7920 (Z.lor 0x80 position)
  else if (8 <=? position) && (position <=? 15) then
    sendInstruction_ST7920 (Z.lor 0x80 (position + 8))
  else if (16 <=? position) && (position <=? 23) then
    sendInstruction_ST7920 (Z.lor 0x80 (position - 8))
  else ret tt.

(** ** Initialisation and clearing (lines 95-126) *)

Definition initialize_ST7920 : M unit :=
  emit SPI_begin ;;
  emit (SPI_beginTransaction 600000 MSBFIRST SPI_MODE3) ;;
  set_instructionSet "B" ;;
  sendInstruction_ST7920 0x30 ;;                   (* 0b0000110000 *)
  delayMicroseconds 20 ;;
  let displayControl := 0x08 in
  d <- get displayStatus_ST7920 ;;
  let displayControl := if d then Z.lor displayControl 0x04 else displayControl in
  u <- get underlineCursorStatus_ST7920 ;;
  let displayControl := if u then Z.lor displayControl 0x02 else displayControl in
  b <- get blinkCursorStatus_ST7920 ;;
  let displayControl := if b then Z.lor displayControl 0x01 else displayControl in
  sendInstruction_ST7920 displayControl ;;
  delayMicroseconds 20 ;;
  sendInstruction_ST7920 0x01 ;;
  delay 10 ;;
  sendInstruction_ST7920 0x06.                     (* 0b0000000110 *)

Definition clearCharacterDisplay_ST7920 : M unit :=
  chooseInstructionSet_ST7920 "B" ;;
  sendInstruction_ST7920 0x01 ;;
  delay 2.

(** ** Display state controller (lines 129-150) *)

Definition setDisplayStatus_ST7920 (option : ascii) (status : bool) : M unit :=
  let instruction := 0x08 in
  (if (option =? "D")%char then set_displayStatus status
   else if (option =? "C")%char then set_underlineCursorStatus status
   else if (option =? "B")%char then set_blinkCursorStatus status
   else ret tt) ;;
  d <- get displayStatus_ST7920 ;;
  let instruction := if d then Z.lor instruction 0x04 else instruction in
  u <- get underlineCursorStatus_ST7920 ;;
  let instruction := if u then Z.lor instruction 0x02 else instruction in
  b <- get blinkCursorStatus_ST7920 ;;
  let instruction := if b then Z.lor instruction 0x01 else instruction in
  chooseInstructionSet_ST7920 "B" ;;
  sendInstruction_ST7920 instruction.

(** ** Text renderer (lines 153-179) *)

(** [a[i]]; reading past the end of the array is undefined. *)
Definition read_array {A : Type} (a : list A) (i : Z) : M A :=
  match nth_error a (Z.to_nat i) with
  | Some x => ret x
  | None => undefined
  end.

Section TextRenderer.

(** Whether plain [char] is a signed type is left to the platform
    (it is on AVR boards, it is not on ARM boards). *)
Variable char_is_signed : bool.

(** Integer promotion of a [char]. *)
Definition char_to_int (c : ascii) : Z :=
  let n := Z.of_N (N_of_ascii c) in
  if char_is_signed && (128 <=? n) then n - 256 else n.

(** The body of [for (byte i = 0; i < length; i++)], for the [n]
    iterations that remain when the counter is [i]; it returns the final
    value of [position].  Both [i] and [length] are bytes, so the loop
    runs [length] times and [i] does not wrap; [position] is a byte and
    wraps. *)
Fixpoint printHalfCharacters_loop (chars : list ascii) (n : nat) (i position : Z)
  : M Z :=
  match n with
  | O => ret position
  | S n' =>
      (if (position =? 16) || (position =? 32) || (position =? 48)
       then setCursor_ST7920 (position / 2)
       else ret tt) ;;
      c <- read_array chars i ;;
      sendInstruction_ST7920 (Z.lor 0x200 (char_to_int c)) ;;
      printHalfCharacters_loop chars n' (i + 1) (to_byte (position + 1))
  end.

Definition printHalfCharacters_ST7920 (chars : list ascii) (length row column : Z)
  : M unit :=
  let position := to_byte (row * 16 + column) in
  setCursor_ST7920 (position / 2) ;;
  (if position mod 2 =? 1 then sendInstruction_ST7920 0x220 else ret tt) ;;
  position <- printHalfCharacters_loop chars (Z.to_nat (to_byte length)) 0 position ;;
  if position mod 2 =? 1 then sendInstruction_ST7920 0x220 else ret tt.

End TextRenderer.

(** [short chars[]]: each element is a 16-bit signed value. *)
Fixpoint printFullCharacters_loop (chars : list Z) (n : nat) (i position : Z) : M Z :=
  match n with
  | O => ret position
  | S n' =>
      (if (position =? 8) || (position =? 16) || (position =? 24)
       then setCursor_ST7920 position
       else ret tt) ;;
      c <- read_array chars i ;;
      sendInstruction_ST7920 (Z.lor 0x200 (Z.land (Z.shiftr c 8) 0xFF)) ;;
      sendInstruction_ST7920 (Z.lor 0x200 (Z.land c 0xFF)) ;;
      printFullCharacters_loop chars n' (i + 1) (to_byte (position + 1))
  end.

Definition printFullCharacters_ST7920 (chars : list Z) (length row column : Z) : M unit :=
  let position := to_byte (row * 8 + column) in
  setCursor_ST7920 position ;;
  _ <- printFullCharacters_loop chars (Z.to_nat (to_byte length)) 0 position ;;
  ret tt.

(** ** Observing a trace *)

Definition trace_of {A : Type} (r : option (A * globals * list event)) : list event :=
  match r with
  | Some (_, _, t) => t
  | None => []
  end.

(** The events of one call of [sendInstruction_ST7920]: three transfers
    and the 80 microseconds of settling time. *)
Definition transaction (instruction : Z) : list event :=
  trace_of (sendInstruction_ST7920 instruction startup).

(** The controller's reading of a transaction, after the transaction rule
    of lines 12-17: byte 1 is 1 1 1 1 1 RW RS 0, byte 2 is DB7-DB4 and four
    zeros, byte 3 is DB3-DB0 and four zeros; the result is the instruction
    RS RW DB7 ... DB0.  Anything else is no transaction. *)
Definition decode_transaction (b1 b2 b3 : Z) : option Z :=
  if (Z.shiftr b1 3 =? 0x1F) && negb (Z.testbit b1 0)
     && (Z.land b2 0x0F =? 0) && (Z.shiftr b2 8 =? 0)
     && (Z.land b3 0x0F =? 0) && (Z.shiftr b3 8 =? 0)
  then Some (Z.lor (Z.lor (Z.shiftl (Z.land b1 0x2) 8) (Z.shiftl (Z.land b1 0x4) 6))
                   (Z.lor b2 (Z.shiftr b3 4)))
  else None.

(** The instructions a trace delivers to the controller, in order; [None]
    when its transfers do not group into well-formed transactions. *)
Fixpoint instructions (t : list event) : option (list Z) :=
  match t with
  | [] => Some []
  | SPI_transfer b1 :: SPI_transfer b2 :: SPI_transfer b3 :: t' =>
      match decode_transaction b1 b2 b3, instructions t' with
      | Some i, Some l => Some (i :: l)
      | _, _ => None
      end
  | SPI_transfer _ :: _ => None
  | _ :: t' => instructions t'
  end.


(** The three bytes [sendInstruction_ST7920] hands to [SPI.transfer] when
    the value of its parameter is [i] (the arguments of lines 19-22). *)
Definition byte1 (i : Z) : Z :=
  to_byte (Z.lor (Z.lor (Z.land (Z.shiftr i 8) 0x2)
                        (Z.land (Z.shiftr i 6) 0x4)) 0xF8).
Definition byte2 (i : Z) : Z := to_byte (Z.land i 0xF0).
Definition byte3 (i : Z) : Z := to_byte (Z.land (Z.shiftl i 4) 0xF0).

(** The DDRAM address [setCursor_ST7920 p] leaves the controller with:
    A5-A0 of the instruction delivered (lines 232-234), when that is one
    set-DDRAM-address instruction, 0 0 1 in bits 9-7. *)
Definition DDRAM_address_set (g : globals) (p : Z) : option Z :=
  match instructions (trace_of (setCursor_ST7920 p g)) with
  | Some [i] => if Z.shiftr i 7 =? 1 then Some (Z.land i 0x3F) else None
  | _ => None
  end.

(** The two instructions that select an instruction set (lines 33, 36). *)
Definition is_mode_switch (i : Z) : bool := (i =? 0x34) || (i =? 0x30).

(** How many instruction-set selections a trace delivers. *)
Definition mode_switches (t : list event) : option nat :=
  option_map (fun l => List.length (filter is_mode_switch l)) (instructions t).

(** The display-control instruction 0 0 0 0 0 0 1 D C B (lines 130,
    144-146) carrying the three flags. *)
Definition encodes_display_control (i : Z) (d c b : bool) : Prop :=
  Z.shiftr i 3 = 1 /\ Z.testbit i 2 = d /\ Z.testbit i 1 = c /\ Z.testbit i 0 = b.

(** The effect of the [switch] of lines 132-142 on the variables. *)
Definition flag_update (option : ascii) (status : bool) (g : globals) : globals :=
  if (option =? "D")%char then with_displayStatus status g
  else if (option =? "C")%char then with_underlineCursorStatus status g
  else if (option =? "B")%char then with_blinkCursorStatus status g
  else g.

(** The test of line 159. *)
Definition is_row_start (position : Z) : bool :=
  (position =? 16) || (position =? 32) || (position =? 48).

(** The initial value of [position] in [printHalfCharacters_ST7920]
    (line 154), and its value when the loop counter is [j]. *)
Definition half_position (row column : Z) : Z := to_byte (row * 16 + column).

Definition running_position (row column j : Z) : Z :=
  to_byte (half_position row column + j).





Definition padding (position : Z) : list event :=
  if position mod 2 =? 1 then transaction 0x220 else [].

(** The bytes a trace hands to [SPI.transfer], in order. *)
Fixpoint transferred (t : list event) : list Z :=
  match t with
  | [] => []
  | SPI_transfer b :: t' => b :: transferred t'
  | _ :: t' => transferred t'
  end.

(** The layout of the first byte of a transaction: prefix 11111, low bit 0,
    bit 2 taken from bit [rw_source] of the instruction and bit 1 from bit
    [rs_source]. *)
Definition first_byte_layout (rw_source rs_source : Z) (instruction : Z) : Prop :=
  forall g : globals,
  exists b1 b2 b3 : Z,
    sendInstruction_ST7920 instruction g =
      Some (tt, g, [SPI_transfer b1; SPI_transfer b2; SPI_transfer b3;
                    DelayMicroseconds 80]) /\
    0 <= b1 < 256 /\
    Z.shiftr b1 3 = 0x1F /\
    Z.testbit b1 0 = false /\
    Z.testbit b1 2 = Z.testbit instruction rw_source /\
    Z.testbit b1 1 = Z.testbit instruction rs_source.

(** ** Further observations *)

(** The instruction the controller reads for a half-width character (line
    161): RS set and the character code in DB7-DB0; where [char] is signed
    a code from 128 up is sign-extended by the promotion to [int], which
    sets RW as well. *)
Definition half_code (char_is_signed : bool) (c : ascii) : Z :=
  let n := Z.of_N (N_of_ascii c) in
  if char_is_signed && (128 <=? n) then 0x300 + n else 0x200 + n.

(** The two instructions the controller reads for a full-width character
    (lines 175-176): RS set with the high byte, then RS set with the low
    byte. *)
Definition full_codes (c : Z) : list Z := [0x200 + (c / 256) mod 256; 0x200 + c mod 256].

(** RS, bit 9 of an instruction: the transaction addresses the data
    register. *)
Definition is_data (i : Z) : bool := Z.testbit i 9.

Definition data_instructions (l : list Z) : list Z := filter is_data l.

(** The set-DDRAM-address instructions with an address up to 31. *)
Definition is_set_DDRAM_address (i : Z) : bool := (0x80 <=? i) && (i <? 0xA0).

(** A list of instructions that [setCursor_ST7920] and the data writes
    produce: each is a set-DDRAM-address instruction or has RS set. *)
Definition cursor_or_data (l : list Z) : Prop :=
  Forall (fun i => is_data i = true \/ is_set_DDRAM_address i = true) l.

(** The events of one call of [setCursor_ST7920]. *)
Definition cursor_events (position : Z) : list event :=
  trace_of (setCursor_ST7920 position startup).

(** The values [position] takes at the [n] iterations of a write loop
    that starts at [position] (lines 162, 177). *)
Fixpoint positions_from (position : Z) (n : nat) : list Z :=
  match n with
  | O => []
  | S n' => position :: positions_from (to_byte (position + 1)) n'
  end.

(** The test of line 173, and the initial [position] of line 169. *)
Definition is_full_row_start (position : Z) : bool :=
  (position =? 8) || (position =? 16) || (position =? 24).

Definition full_position (row column : Z) : Z := to_byte (row * 8 + column).

(** The events of the write loops (lines 158-163 and 172-178) over the
    characters [cs], from [position]. *)
Fixpoint half_loop_events (char_is_signed : bool) (cs : list ascii) (position : Z)
  : list event :=
  match cs with
  | [] => []
  | c :: cs' =>
      (if is_row_start position then cursor_events (position / 2) else [])
      ++ transaction (Z.lor 0x200 (char_to_int char_is_signed c))
      ++ half_loop_events char_is_signed cs' (to_byte (position + 1))
  end.

Fixpoint full_loop_events (cs : list Z) (position : Z) : list event :=
  match cs with
  | [] => []
  | c :: cs' =>
      (if is_full_row_start position then cursor_events position else [])
      ++ transaction (Z.lor 0x200 (Z.land (Z.shiftr c 8) 0xFF))
      ++ transaction (Z.lor 0x200 (Z.land c 0xFF))
      ++ full_loop_events cs' (to_byte (position + 1))
  end.

(** An operation of the basic instruction set (lines 45-78, 122-126): it
    first selects the basic set, which delivers 0b0000110000 and sets the
    tracked mode to 'B' exactly when the tracked mode was 'E', then
    delivers at most one instruction, which is no mode switch, and it
    changes no other variable. *)
Definition basic_set_operation (op : M unit) : Prop :=
  forall g : globals,
  exists (g' : globals) (t : list event) (l : list Z),
    op g = Some (tt, g', t) /\
    instructions t =
      Some ((if (instructionSet_ST7920 g =? "E")%char then [0x30] else []) ++ l) /\
    filter is_mode_switch l = [] /\
    (List.length l <= 1)%nat /\
    g' = (if (instructionSet_ST7920 g =? "E")%char
          then with_instructionSet "B" g else g).

(** * Properties *)

(** ** Bit-level facts about a transaction *)

(** Equality of two bit patterns, bit by bit; the comparisons that come
    from single-bit masks are split as well. *)
Ltac bit_by_bit :=
  Z.bitblast;
  repeat match goal with
         | |- context [ ?a =? ?b ] => destruct (Z.eqb_spec a b)
         end;
  try (exfalso; lia);
  subst; cbn [negb andb orb];
  try btauto.

Section Bytes.

Variable i : Z.

Lemma byte1_bits :
  byte1 i = Z.land (Z.lor (Z.lor (Z.land (Z.shiftr i 8) (2 ^ 1))
                               (Z.land (Z.shiftr i 6) (2 ^ 2)))
                        (Z.shiftl (Z.ones 5) 3)) (Z.ones 8).
Proof. unfold byte1, to_byte. now rewrite Z.land_ones by lia. Qed.

Lemma byte2_bits : byte2 i = Z.land (Z.land i (Z.shiftl (Z.ones 4) 4)) (Z.ones 8).
Proof. unfold byte2, to_byte. now rewrite Z.land_ones by lia. Qed.

Lemma byte3_bits :
  byte3 i = Z.land (Z.land (Z.shiftl i 4) (Z.shiftl (Z.ones 4) 4)) (Z.ones 8).
Proof. unfold byte3, to_byte. now rewrite Z.land_ones by lia. Qed.

Lemma byte1_range : 0 <= byte1 i < 256.
Proof. unfold byte1, to_byte. apply Z.mod_pos_bound. lia. Qed.

Lemma byte1_prefix : Z.shiftr (byte1 i) 3 = 0x1F.
Proof. rewrite byte1_bits. change 0x1F with (Z.ones 5). Z.bitblast. Qed.

Lemma byte1_bit0 : Z.testbit (byte1 i) 0 = false.
Proof.
  rewrite byte1_bits. Z.rewrite_bitwise.
  destruct (Z.testbit i (0 + 8)), (Z.testbit i (0 + 6)); reflexivity.
Qed.

Lemma byte1_bit1 : Z.testbit (byte1 i) 1 = Z.testbit i 9.
Proof.
  rewrite byte1_bits. Z.rewrite_bitwise.
  destruct (Z.testbit i (1 + 8)) eqn:E, (Z.testbit i (1 + 6)); 
    change (1 + 8) with 9 in E; rewrite E; reflexivity.
Qed.

Lemma byte1_bit2 : Z.testbit (byte1 i) 2 = Z.testbit i 8.
Proof.
  rewrite byte1_bits. Z.rewrite_bitwise.
  destruct (Z.testbit i (2 + 8)), (Z.testbit i (2 + 6)) eqn:E;
    change (2 + 6) with 8 in E; rewrite E; reflexivity.
Qed.

Lemma byte2_low : Z.land (byte2 i) 0x0F = 0.
Proof. rewrite byte2_bits. change 0x0F with (Z.ones 4). Z.bitblast. Qed.

Lemma byte2_high : Z.shiftr (byte2 i) 8 = 0.
Proof. rewrite byte2_bits. Z.bitblast. Qed.

Lemma byte3_low : Z.land (byte3 i) 0x0F = 0.
Proof. rewrite byte3_bits. change 0x0F with (Z.ones 4). Z.bitblast. Qed.

Lemma byte3_high : Z.shiftr (byte3 i) 8 = 0.
Proof. rewrite byte3_bits. Z.bitblast. Qed.

Lemma byte1_mask2 : Z.land (byte1 i) (2 ^ 1) = Z.land (Z.shiftr i 8) (2 ^ 1).
Proof. rewrite byte1_bits. bit_by_bit. Qed.

Lemma byte1_mask4 : Z.land (byte1 i) (2 ^ 2) = Z.land (Z.shiftr i 6) (2 ^ 2).
Proof. rewrite byte1_bits. bit_by_bit. Qed.

Lemma byte2_nibble : byte2 i = Z.land i (Z.shiftl (Z.ones 4) 4).
Proof. rewrite byte2_bits. bit_by_bit. Qed.

Lemma byte3_nibble : Z.shiftr (byte3 i) 4 = Z.land i (Z.ones 4).
Proof. rewrite byte3_bits. bit_by_bit. Qed.

Lemma bytes_decode_powers :
  Z.lor (Z.lor (Z.shiftl (Z.land (byte1 i) (2 ^ 1)) 8)
               (Z.shiftl (Z.land (byte1 i) (2 ^ 2)) 6))
        (Z.lor (byte2 i) (Z.shiftr (byte3 i) 4)) = Z.land i (Z.ones 10).
Proof.
  rewrite byte1_mask2, byte1_mask4, byte2_nibble, byte3_nibble.
  bit_by_bit.
Qed.

Lemma bytes_decode :
  Z.lor (Z.lor (Z.shiftl (Z.land (byte1 i) 0x2) 8) (Z.shiftl (Z.land (byte1 i) 0x4) 6))
        (Z.lor (byte2 i) (Z.shiftr (byte3 i) 4)) = i mod 1024.
Proof.
  change 1024 with (2 ^ 10). rewrite <- Z.land_ones by lia.
  exact bytes_decode_powers.
Qed.

End Bytes.

Arguments byte1 : simpl never.
Arguments byte2 : simpl never.
Arguments byte3 : simpl never.

Lemma to_short_small (z : Z) : -32768 <= z < 32768 -> to_short z = z.
Proof. intros H. unfold to_short. rewrite Z.mod_small by lia. lia. Qed.

Lemma to_short_mod_1024 (z : Z) : to_short z mod 1024 = z mod 1024.
Proof.
  unfold to_short. rewrite (Z.mod_eq (z + 32768) 65536) by lia.
  replace (z + 32768 - 65536 * ((z + 32768) / 65536) - 32768) with
    (z + (- 64 * ((z + 32768) / 65536)) * 1024) by lia.
  apply Z.mod_add. lia.
Qed.

Lemma to_byte_small (z : Z) : 0 <= z < 256 -> to_byte z = z.
Proof. intros H. unfold to_byte. apply Z.mod_small. exact H. Qed.

(** ** Running the encoder *)

Lemma sendInstruction_run (arg : Z) (g : globals) :
  sendInstruction_ST7920 arg g = Some (tt, g, transaction arg).
Proof. reflexivity. Qed.

Lemma transaction_bytes (arg : Z) :
  transaction arg =
  [SPI_transfer (byte1 (to_short arg)); SPI_transfer (byte2 (to_short arg));
   SPI_transfer (byte3 (to_short arg)); DelayMicroseconds 80].
Proof. reflexivity. Qed.

Lemma decode_bytes (i : Z) :
  decode_transaction (byte1 i) (byte2 i) (byte3 i) = Some (i mod 1024).
Proof.
  unfold decode_transaction.
  rewrite byte1_prefix, byte1_bit0, byte2_low, byte2_high, byte3_low, byte3_high.
  cbn [Z.eqb Pos.eqb negb andb]. now rewrite bytes_decode.
Qed.

Lemma instructions_transaction (arg : Z) (t : list event) :
  instructions (transaction arg ++ t) =
  option_map (cons (arg mod 1024)) (instructions t).
Proof.
  rewrite transaction_bytes. cbn [app instructions].
  rewrite decode_bytes, to_short_mod_1024.
  destruct (instructions t); reflexivity.
Qed.

Lemma instructions_one (arg : Z) : instructions (transaction arg) = Some [arg mod 1024].
Proof.
  rewrite <- (app_nil_r (transaction arg)). now rewrite instructions_transaction.
Qed.


(** ** Transaction encoder *)

(** C1, as the code has it: for every 10-bit instruction RS RW DB7..DB0
    passed to [sendInstruction_ST7920], the first transferred byte has
    prefix 11111 in its high five bits and low bit 0; its bit 2 is the RW
    bit, which is bit 8 of the instruction, and its bit 1 is the RS bit,
    which is bit 9 of the instruction. *)
Theorem sendInstruction_first_byte (instruction : Z) :
  0 <= instruction < 1024 ->
  first_byte_layout 8 9 instruction.
Proof.
  intros Hrange g.
  exists (byte1 instruction), (byte2 instruction), (byte3 instruction).
  rewrite sendInstruction_run, transaction_bytes, to_short_small by lia.
  repeat split.
  - apply byte1_range.
  - apply byte1_range.
  - apply byte1_prefix.
  - apply byte1_bit0.
  - apply byte1_bit2.
  - apply byte1_bit1.
Qed.

Lemma sendInstruction_first_byte_witness : first_byte_layout 8 9 0x241.
Proof. apply (sendInstruction_first_byte 0x241). lia. Defined.

(** C1, as stated, fails: for the write-data instruction 0b1000000000 the
    first byte is 0b11111010, so its bit 2 is not bit 9 of the instruction
    and its bit 1 is not bit 8. *)
Lemma sendInstruction_first_byte_not_swapped :
  0 <= 0x200 < 1024 /\ ~ first_byte_layout 9 8 0x200.
Proof.
  split; [lia|].
  intros H. destruct (H startup) as (b1 & b2 & b3 & Hrun & _ & _ & _ & Hrw & _).
  rewrite sendInstruction_run in Hrun. injection Hrun as <- _ _.
  vm_compute in Hrw. discriminate Hrw.
Qed.

(** C2, as the code has it: [sendInstruction_ST7920 0b0000110000]
    transfers exactly the three bytes 0b11111000, 0b00110000, 0b00000000,
    in that order, and then waits 80 microseconds. *)
Theorem sendInstruction_function_set (g : globals) :
  sendInstruction_ST7920 0x30 g =
    Some (tt, g, [SPI_transfer 0xF8; SPI_transfer 0x30; SPI_transfer 0x00;
                  DelayMicroseconds 80]) /\
  transferred (transaction 0x30) = [0xF8; 0x30; 0x00].
Proof. split; reflexivity. Qed.

(** C2, as stated, fails: the second byte carries DB7-DB4 = 0011 and is
    0b00110000, not 0b00000000. *)
Lemma sendInstruction_function_set_not_zero :
  transferred (trace_of (sendInstruction_ST7920 0x30 startup)) <> [0xF8; 0x00; 0x00].
Proof. vm_compute. discriminate. Qed.

(** ** Addressing translator *)

Lemma lor_0x80 (a : Z) : 0 <= a < 64 -> Z.lor 0x80 a = 0x80 + a.
Proof.
  intros Ha. apply Z.or_to_plus. apply Z.bits_inj'. intros n Hn.
  rewrite Z.land_spec, Z.bits_0. change 0x80 with (2 ^ 7).
  rewrite Z.pow2_bits_eqb by lia.
  destruct (Z.eqb_spec 7 n) as [<-|]; [|reflexivity].
  rewrite <- (Z.mod_small a (2 ^ 6)) by (change (2 ^ 6) with 64; lia).
  rewrite Z.mod_pow2_bits_high by lia. reflexivity.
Qed.

Lemma set_DDRAM_address_fields (a : Z) :
  0 <= a < 64 ->
  Z.lor 0x80 a mod 1024 = Z.lor 0x80 a /\
  Z.shiftr (Z.lor 0x80 a) 7 = 1 /\
  Z.land (Z.lor 0x80 a) 0x3F = a.
Proof.
  intros Ha. rewrite lor_0x80 by exact Ha. repeat split.
  - apply Z.mod_small. lia.
  - rewrite Z.shiftr_div_pow2 by lia. change (2 ^ 7) with 128.
    symmetry. apply (Z.div_unique _ _ 1 a); lia.
  - change 0x3F with (Z.ones 6). rewrite Z.land_ones by lia.
    change (2 ^ 6) with 64. symmetry. apply (Z.mod_unique _ _ 2 a); lia.
Qed.

Ltac decide_ranges :=
  repeat match goal with
         | |- context [ ?a <=? ?b ] => destruct (Z.leb_spec a b); try lia
         end;
  cbn [andb orb].

Lemma setCursor_rows_0_3 (p : Z) (g : globals) :
  0 <= p <= 7 \/ 24 <= p <= 31 ->
  setCursor_ST7920 p g =
    Some (tt, g, Enter_setCursor p :: transaction (Z.lor 0x80 p)).
Proof.
  intros H. unfold setCursor_ST7920. rewrite to_byte_small by lia.
  unfold bind, emit. decide_ranges; reflexivity.
Qed.

Lemma setCursor_row_1 (p : Z) (g : globals) :
  8 <= p <= 15 ->
  setCursor_ST7920 p g =
    Some (tt, g, Enter_setCursor p :: transaction (Z.lor 0x80 (p + 8))).
Proof.
  intros H. unfold setCursor_ST7920. rewrite to_byte_small by lia.
  unfold bind, emit. decide_ranges; reflexivity.
Qed.

Lemma setCursor_row_2 (p : Z) (g : globals) :
  16 <= p <= 23 ->
  setCursor_ST7920 p g =
    Some (tt, g, Enter_setCursor p :: transaction (Z.lor 0x80 (p - 8))).
Proof.
  intros H. unfold setCursor_ST7920. rewrite to_byte_small by lia.
  unfold bind, emit. decide_ranges; reflexivity.
Qed.

Lemma setCursor_beyond (p : Z) (g : globals) :
  32 <= p <= 255 ->
  setCursor_ST7920 p g = Some (tt, g, [Enter_setCursor p]).
Proof.
  intros H. unfold setCursor_ST7920. rewrite to_byte_small by lia.
  unfold bind, emit. decide_ranges; reflexivity.
Qed.

(** What [setCursor_ST7920] does at a position in [0, 31], with the
    address [a] it sends. *)
Lemma setCursor_sends (p : Z) (g : globals) :
  0 <= p <= 31 ->
  exists a : Z,
    setCursor_ST7920 p g =
      Some (tt, g, Enter_setCursor p :: transaction (Z.lor 0x80 a)) /\
    0 <= a <= 31 /\
    (0 <= p <= 7 \/ 24 <= p <= 31 -> a = p) /\
    (8 <= p <= 15 -> a = p + 8) /\
    (16 <= p <= 23 -> a = p - 8).
Proof.
  intros H.
  assert (C : (0 <= p <= 7 \/ 24 <= p <= 31) \/ 8 <= p <= 15 \/ 16 <= p <= 23) by lia.
  destruct C as [C | [C | C]].
  - exists p. rewrite setCursor_rows_0_3 by exact C. repeat split; lia.
  - exists (p + 8). rewrite setCursor_row_1 by exact C. repeat split; lia.
  - exists (p - 8). rewrite setCursor_row_2 by exact C. repeat split; lia.
Qed.

(** C3: for a logical position [p] in [0, 31], [setCursor_ST7920 p]
    delivers exactly one instruction, the set-DDRAM-address opcode (0 0 1 in
    bits 9-7) combined with a physical address [a] in its low bits, where
    [a = p] for [p] in [0,7] or [24,31], [a = p + 8] for [p] in [8,15] and
    [a = p - 8] for [p] in [16,23]. *)
Theorem setCursor_physical_address (p : Z) (g : globals) :
  0 <= p <= 31 ->
  exists (a : Z) (t : list event),
    setCursor_ST7920 p g = Some (tt, g, t) /\
    instructions t = Some [Z.lor 0x80 a] /\
    Z.shiftr (Z.lor 0x80 a) 7 = 1 /\
    Z.land (Z.lor 0x80 a) 0x3F = a /\
    (0 <= p <= 7 \/ 24 <= p <= 31 -> a = p) /\
    (8 <= p <= 15 -> a = p + 8) /\
    (16 <= p <= 23 -> a = p - 8).
Proof.
  intros H. destruct (setCursor_sends p g H) as (a & Hrun & Ha & H1 & H2 & H3).
  destruct (set_DDRAM_address_fields a) as (Hm & Hop & Haddr); [lia|].
  exists a, (Enter_setCursor p :: transaction (Z.lor 0x80 a)).
  split; [exact Hrun|]. split.
  - cbn [instructions]. rewrite instructions_one, Hm. reflexivity.
  - auto.
Qed.

Lemma setCursor_physical_address_witness :
  exists (a : Z) (t : list event),
    setCursor_ST7920 9 startup = Some (tt, startup, t) /\
    instructions t = Some [Z.lor 0x80 a] /\
    Z.shiftr (Z.lor 0x80 a) 7 = 1 /\
    Z.land (Z.lor 0x80 a) 0x3F = a /\
    (0 <= 9 <= 7 \/ 24 <= 9 <= 31 -> a = 9) /\
    (8 <= 9 <= 15 -> a = 9 + 8) /\
    (16 <= 9 <= 23 -> a = 9 - 8).
Proof. apply (setCursor_physical_address 9 startup). lia. Defined.

Lemma DDRAM_address_set_sends (p a : Z) (g : globals) :
  0 <= a <= 31 ->
  setCursor_ST7920 p g =
    Some (tt, g, Enter_setCursor p :: transaction (Z.lor 0x80 a)) ->
  DDRAM_address_set g p = Some a.
Proof.
  intros Ha Hrun. unfold DDRAM_address_set. rewrite Hrun.
  destruct (set_DDRAM_address_fields a) as (Hm & Hop & Haddr); [lia|].
  cbn [trace_of instructions]. rewrite instructions_one, Hm, Hop, Haddr.
  reflexivity.
Qed.

(** C4: over the logical positions 0 to 31 the address [setCursor_ST7920]
    sets is defined, lies in [0, 31], and is different for different
    positions. *)
Theorem setCursor_injective (p q : Z) (g : globals) :
  0 <= p <= 31 -> 0 <= q <= 31 ->
  exists a b : Z,
    DDRAM_address_set g p = Some a /\
    DDRAM_address_set g q = Some b /\
    0 <= a <= 31 /\ 0 <= b <= 31 /\
    (a = b -> p = q).
Proof.
  intros Hp Hq.
  destruct (setCursor_sends p g Hp) as (a & Hrun & Ha & A1 & A2 & A3).
  destruct (setCursor_sends q g Hq) as (b & Hrun' & Hb & B1 & B2 & B3).
  exists a, b.
  rewrite (DDRAM_address_set_sends p a g Ha Hrun).
  rewrite (DDRAM_address_set_sends q b g Hb Hrun').
  repeat split; try lia.
Qed.

Lemma setCursor_injective_witness :
  exists a b : Z,
    DDRAM_address_set startup 15 = Some a /\
    DDRAM_address_set startup 23 = Some b /\
    0 <= a <= 31 /\ 0 <= b <= 31 /\
    (a = b -> 15 = 23).
Proof. apply (setCursor_injective 15 23 startup); lia. Defined.

(** C9: for a position from 32 up (a [byte], so at most 255)
    [setCursor_ST7920] returns without any hardware event, so without any
    transfer or instruction, and leaves the driver's variables as they
    were. *)
Theorem setCursor_out_of_range (p : Z) (g : globals) :
  32 <= p <= 255 ->
  exists t : list event,
    setCursor_ST7920 p g = Some (tt, g, t) /\
    hardware t = [] /\
    transferred t = [] /\
    instructions t = Some [].
Proof.
  intros H. exists [Enter_setCursor p].
  rewrite setCursor_beyond by exact H. repeat split.
Qed.

Lemma setCursor_out_of_range_witness :
  exists t : list event,
    setCursor_ST7920 32 startup = Some (tt, startup, t) /\
    hardware t = [] /\
    transferred t = [] /\
    instructions t = Some [].
Proof. apply (setCursor_out_of_range 32 startup). lia. Defined.

(** ** Mode tracker *)

Lemma chooseInstructionSet_Basic (g : globals) :
  chooseInstructionSet_ST7920 "B" g =
    if (instructionSet_ST7920 g =? "E")%char
    then Some (tt, with_instructionSet "B" g, transaction 0x30)
    else Some (tt, g, []).
Proof.
  unfold chooseInstructionSet_ST7920, bind, get. cbn [Ascii.eqb Bool.eqb andb].
  destruct (instructionSet_ST7920 g =? "E")%char; reflexivity.
Qed.

Lemma chooseInstructionSet_same (g : globals) :
  chooseInstructionSet_ST7920 (instructionSet_ST7920 g) g = Some (tt, g, []).
Proof.
  unfold chooseInstructionSet_ST7920, bind, get.
  destruct (Ascii.eqb_spec (instructionSet_ST7920 g) "E") as [->|];
    destruct (Ascii.eqb_spec (instructionSet_ST7920 g) "B") as [E|];
    try rewrite E; reflexivity.
Qed.

(** C5, as the code has it: two calls of [chooseInstructionSet_ST7920 'B']
    in a row deliver one mode-switch instruction (0b0000110000, from the
    first call) when the tracked mode was 'E' before, and none otherwise,
    so none from the startup state; the second call emits nothing and
    changes nothing.  In general a call whose target is the tracked mode
    emits nothing and leaves the variables as they were. *)
Theorem chooseInstructionSet_twice (g : globals) :
  chooseInstructionSet_ST7920 (instructionSet_ST7920 g) g = Some (tt, g, []) /\
  exists (g1 : globals) (t1 : list event),
    chooseInstructionSet_ST7920 "B" g = Some (tt, g1, t1) /\
    chooseInstructionSet_ST7920 "B" g1 = Some (tt, g1, []) /\
    (chooseInstructionSet_ST7920 "B" ;; chooseInstructionSet_ST7920 "B") g =
      Some (tt, g1, t1) /\
    instructions t1 =
      Some (if (instructionSet_ST7920 g =? "E")%char then [0x30] else []) /\
    mode_switches t1 =
      Some (if (instructionSet_ST7920 g =? "E")%char then 1%nat else 0%nat) /\
    g1 = (if (instructionSet_ST7920 g =? "E")%char
          then with_instructionSet "B" g else g).
Proof.
  split; [apply chooseInstructionSet_same|].
  unfold bind. rewrite chooseInstructionSet_Basic.
  destruct (instructionSet_ST7920 g =? "E")%char eqn:E.
  - exists (with_instructionSet "B" g), (transaction 0x30).
    rewrite chooseInstructionSet_Basic. cbn [with_instructionSet instructionSet_ST7920].
    cbn [Ascii.eqb Bool.eqb andb]. rewrite app_nil_r.
    unfold mode_switches. rewrite instructions_one. repeat split.
  - exists g, []. rewrite chooseInstructionSet_Basic, E. repeat split.
Qed.

(** C5, as stated, fails: from the startup state, where the tracked mode
    is already 'B', the two calls deliver no mode-switch instruction. *)
Lemma chooseInstructionSet_twice_not_one :
  ~ exists (g1 : globals) (t : list event),
      (chooseInstructionSet_ST7920 "B" ;; chooseInstructionSet_ST7920 "B") startup =
        Some (tt, g1, t) /\
      mode_switches t = Some 1%nat.
Proof.
  intros (g1 & t & Hrun & Hcount).
  vm_compute in Hrun. injection Hrun as _ <-.
  vm_compute in Hcount. discriminate Hcount.
Qed.

(** ** Display state controller *)

Ltac simpl_globals :=
  cbn [with_displayStatus with_underlineCursorStatus with_blinkCursorStatus
       with_instructionSet instructionSet_ST7920 displayStatus_ST7920
       underlineCursorStatus_ST7920 blinkCursorStatus_ST7920] in *.

Lemma setDisplayStatus_run (option : ascii) (status : bool) (g : globals) :
  exists i : Z,
    setDisplayStatus_ST7920 option status g =
      Some (tt,
            (if (instructionSet_ST7920 g =? "E")%char
             then with_instructionSet "B" (flag_update option status g)
             else flag_update option status g),
            (if (instructionSet_ST7920 g =? "E")%char then transaction 0x30 else [])
            ++ transaction i) /\
    i mod 1024 = i /\
    encodes_display_control i
      (displayStatus_ST7920 (flag_update option status g))
      (underlineCursorStatus_ST7920 (flag_update option status g))
      (blinkCursorStatus_ST7920 (flag_update option status g)).
Proof.
  unfold setDisplayStatus_ST7920, flag_update, bind, get.
  destruct g as [c d u b].
  destruct (option =? "D")%char; [|destruct (option =? "C")%char; [|destruct (option =? "B")%char]];
  cbn [set_displayStatus set_underlineCursorStatus set_blinkCursorStatus modify ret];
  rewrite chooseInstructionSet_Basic;
  cbn [with_displayStatus with_underlineCursorStatus with_blinkCursorStatus with_instructionSet
       instructionSet_ST7920 displayStatus_ST7920 underlineCursorStatus_ST7920 blinkCursorStatus_ST7920];
  destruct (c =? "E")%char; rewrite sendInstruction_run; cbn [app];
  eexists; (split; [reflexivity|]).
  all: destruct status, d, u, b; vm_compute; intuition congruence.
Qed.

Lemma instructions_switch_then (b : bool) (i : Z) :
  i mod 1024 = i ->
  instructions ((if b then transaction 0x30 else []) ++ transaction i) =
    Some ((if b then [0x30] else []) ++ [i]).
Proof.
  intros Hi. destruct b; cbn [app].
  - rewrite instructions_transaction, instructions_one, Hi. reflexivity.
  - rewrite instructions_one, Hi. reflexivity.
Qed.

(** C6: for an option among 'D', 'C' and 'B', [setDisplayStatus_ST7920]
    assigns [status] to the one flag the option names and leaves the other
    two as they were, and the last instruction it delivers (after the
    switch to the basic set, if one is due) is the display-control
    instruction carrying the three flags as they now are.  In particular,
    from all three flags true, [setDisplayStatus_ST7920 'D' false] followed
    by [setDisplayStatus_ST7920 'C' true] ends with a display-control
    instruction for display off, underline cursor on, blink cursor on, and
    with the flags at these values. *)
Theorem setDisplayStatus_one_flag (option : ascii) (status : bool) (g : globals) :
  option = "D"%char \/ option = "C"%char \/ option = "B"%char ->
  (exists (g' : globals) (t : list event) (switch : list Z) (i : Z),
     setDisplayStatus_ST7920 option status g = Some (tt, g', t) /\
     (option = "D"%char ->
      displayStatus_ST7920 g' = status /\
      underlineCursorStatus_ST7920 g' = underlineCursorStatus_ST7920 g /\
      blinkCursorStatus_ST7920 g' = blinkCursorStatus_ST7920 g) /\
     (option = "C"%char ->
      displayStatus_ST7920 g' = displayStatus_ST7920 g /\
      underlineCursorStatus_ST7920 g' = status /\
      blinkCursorStatus_ST7920 g' = blinkCursorStatus_ST7920 g) /\
     (option = "B"%char ->
      displayStatus_ST7920 g' = displayStatus_ST7920 g /\
      underlineCursorStatus_ST7920 g' = underlineCursorStatus_ST7920 g /\
      blinkCursorStatus_ST7920 g' = status) /\
     instructions t = Some (switch ++ [i]) /\
     switch = (if (instructionSet_ST7920 g =? "E")%char then [0x30] else []) /\
     encodes_display_control i (displayStatus_ST7920 g')
       (underlineCursorStatus_ST7920 g') (blinkCursorStatus_ST7920 g')) /\
  (forall mode : ascii,
   exists (g2 : globals) (t2 : list event) (earlier : list Z) (i : Z),
     (setDisplayStatus_ST7920 "D" false ;; setDisplayStatus_ST7920 "C" true)
       (mkGlobals mode true true true) = Some (tt, g2, t2) /\
     instructions t2 = Some (earlier ++ [i]) /\
     encodes_display_control i false true true /\
     displayStatus_ST7920 g2 = false /\
     underlineCursorStatus_ST7920 g2 = true /\
     blinkCursorStatus_ST7920 g2 = true).
Proof.
  intros Hoption. split.
  - destruct (setDisplayStatus_run option status g) as (i & Hrun & Hi & Henc).
    eexists _, _, (if (instructionSet_ST7920 g =? "E")%char then [0x30] else []), i.
    split; [exact Hrun|].
    rewrite instructions_switch_then by exact Hi.
    assert (Hflags : forall g0, 
      displayStatus_ST7920 (if (instructionSet_ST7920 g =? "E")%char then with_instructionSet "B" g0 else g0) = displayStatus_ST7920 g0 /\
      underlineCursorStatus_ST7920 (if (instructionSet_ST7920 g =? "E")%char then with_instructionSet "B" g0 else g0) = underlineCursorStatus_ST7920 g0 /\
      blinkCursorStatus_ST7920 (if (instructionSet_ST7920 g =? "E")%char then with_instructionSet "B" g0 else g0) = blinkCursorStatus_ST7920 g0).
    { intros g0. destruct (instructionSet_ST7920 g =? "E")%char; repeat split. }
    destruct (Hflags (flag_update option status g)) as (-> & -> & ->).
    split; [intros ->; repeat split|].
    split; [intros ->; repeat split|].
    split; [intros ->; repeat split|].
    split; [reflexivity|]. split; [reflexivity|exact Henc].
  - intros mode. unfold bind.
    destruct (setDisplayStatus_run "D" false (mkGlobals mode true true true))
      as (i1 & Hrun1 & Hi1 & Henc1).
    unfold flag_update in Hrun1, Henc1. simpl_globals. cbn [Ascii.eqb Bool.eqb] in *.
    destruct (mode =? "E")%char eqn:E; rewrite Hrun1;
      match goal with |- context [setDisplayStatus_ST7920 "C" true ?g1] =>
        destruct (setDisplayStatus_run "C" true g1) as (i2 & Hrun2 & Hi2 & Henc2)
      end;
      unfold flag_update in Hrun2, Henc2; simpl_globals;
      cbn [Ascii.eqb Bool.eqb] in *; rewrite ?E in Hrun2; rewrite Hrun2;
      eexists _, _, ((if (mode =? "E")%char then [0x30] else []) ++ [i1]), i2;
      (split; [reflexivity|]); rewrite E; cbn [app];
      rewrite <- ?app_assoc, ?instructions_transaction, instructions_one, Hi1, Hi2;
      cbn [option_map]; (split; [reflexivity|split; [exact Henc2|repeat split]]).
Qed.

Lemma setDisplayStatus_one_flag_witness :
  (exists (g' : globals) (t : list event) (switch : list Z) (i : Z),
     setDisplayStatus_ST7920 "D" false startup = Some (tt, g', t) /\
     ("D"%char = "D"%char ->
      displayStatus_ST7920 g' = false /\
      underlineCursorStatus_ST7920 g' = underlineCursorStatus_ST7920 startup /\
      blinkCursorStatus_ST7920 g' = blinkCursorStatus_ST7920 startup) /\
     ("D"%char = "C"%char ->
      displayStatus_ST7920 g' = displayStatus_ST7920 startup /\
      underlineCursorStatus_ST7920 g' = false /\
      blinkCursorStatus_ST7920 g' = blinkCursorStatus_ST7920 startup) /\
     ("D"%char = "B"%char ->
      displayStatus_ST7920 g' = displayStatus_ST7920 startup /\
      underlineCursorStatus_ST7920 g' = underlineCursorStatus_ST7920 startup /\
      blinkCursorStatus_ST7920 g' = false) /\
     instructions t = Some (switch ++ [i]) /\
     switch = (if (instructionSet_ST7920 startup =? "E")%char then [0x30] else []) /\
     encodes_display_control i (displayStatus_ST7920 g')
       (underlineCursorStatus_ST7920 g') (blinkCursorStatus_ST7920 g')) /\
  (forall mode : ascii,
   exists (g2 : globals) (t2 : list event) (earlier : list Z) (i : Z),
     (setDisplayStatus_ST7920 "D" false ;; setDisplayStatus_ST7920 "C" true)
       (mkGlobals mode true true true) = Some (tt, g2, t2) /\
     instructions t2 = Some (earlier ++ [i]) /\
     encodes_display_control i false true true /\
     displayStatus_ST7920 g2 = false /\
     underlineCursorStatus_ST7920 g2 = true /\
     blinkCursorStatus_ST7920 g2 = true).
Proof.
  apply (setDisplayStatus_one_flag "D" false startup). left. reflexivity.
Defined.

Lemma flag_update_other (option : ascii) (status : bool) (g : globals) :
  option <> "D"%char -> option <> "C"%char -> option <> "B"%char ->
  flag_update option status g = g.
Proof.
  intros HD HC HB. unfold flag_update.
  apply Ascii.eqb_neq in HD, HC, HB. now rewrite HD, HC, HB.
Qed.

(** C10: for an option other than 'D', 'C' and 'B',
    [setDisplayStatus_ST7920] changes none of the three flags, and still
    selects the basic instruction set (delivering the switch when the
    tracked mode was 'E') and delivers the display-control instruction
    carrying the unchanged flags. *)
Theorem setDisplayStatus_other_option (option : ascii) (status : bool) (g : globals) :
  option <> "D"%char -> option <> "C"%char -> option <> "B"%char ->
  exists (g' : globals) (t : list event) (switch : list Z) (i : Z),
    setDisplayStatus_ST7920 option status g = Some (tt, g', t) /\
    displayStatus_ST7920 g' = displayStatus_ST7920 g /\
    underlineCursorStatus_ST7920 g' = underlineCursorStatus_ST7920 g /\
    blinkCursorStatus_ST7920 g' = blinkCursorStatus_ST7920 g /\
    instructionSet_ST7920 g' =
      (if (instructionSet_ST7920 g =? "E")%char then "B"%char
       else instructionSet_ST7920 g) /\
    instructions t = Some (switch ++ [i]) /\
    switch = (if (instructionSet_ST7920 g =? "E")%char then [0x30] else []) /\
    encodes_display_control i (displayStatus_ST7920 g)
      (underlineCursorStatus_ST7920 g) (blinkCursorStatus_ST7920 g).
Proof.
  intros HD HC HB.
  destruct (setDisplayStatus_run option status g) as (i & Hrun & Hi & Henc).
  rewrite (flag_update_other option status g HD HC HB) in Hrun, Henc.
  eexists _, _, (if (instructionSet_ST7920 g =? "E")%char then [0x30] else []), i.
  split; [exact Hrun|].
  rewrite instructions_switch_then by exact Hi.
  destruct (instructionSet_ST7920 g =? "E")%char; repeat split; apply Henc.
Qed.

Lemma setDisplayStatus_other_option_witness :
  exists (g' : globals) (t : list event) (switch : list Z) (i : Z),
    setDisplayStatus_ST7920 "x" false startup = Some (tt, g', t) /\
    displayStatus_ST7920 g' = displayStatus_ST7920 startup /\
    underlineCursorStatus_ST7920 g' = underlineCursorStatus_ST7920 startup /\
    blinkCursorStatus_ST7920 g' = blinkCursorStatus_ST7920 startup /\
    instructionSet_ST7920 g' =
      (if (instructionSet_ST7920 startup =? "E")%char then "B"%char
       else instructionSet_ST7920 startup) /\
    instructions t = Some (switch ++ [i]) /\
    switch = (if (instructionSet_ST7920 startup =? "E")%char then [0x30] else []) /\
    encodes_display_control i (displayStatus_ST7920 startup)
      (underlineCursorStatus_ST7920 startup) (blinkCursorStatus_ST7920 startup).
Proof.
  apply (setDisplayStatus_other_option "x" false startup); discriminate.
Defined.

(** C8: [initialize_ST7920] leaves the tracked mode at 'B', the flags as
    they were, and delivers in this order the function-set instruction
    0b0000110000, the display-control instruction carrying the current
    flags, the clear-display instruction and the entry-mode instruction for
    a cursor that moves right; the last two are the instructions
    [clearCharacterDisplay_ST7920] and [setEntryMode_ST7920 'C' 'R']
    deliver. *)
Theorem initialize_sequence (g : globals) :
  exists (g' : globals) (t : list event) (displayControl : Z),
    initialize_ST7920 g = Some (tt, g', t) /\
    g' = with_instructionSet "B" g /\
    t = [SPI_begin; SPI_beginTransaction 600000 MSBFIRST SPI_MODE3]
        ++ transaction 0x30 ++ [DelayMicroseconds 20]
        ++ transaction displayControl ++ [DelayMicroseconds 20]
        ++ transaction 0x01 ++ [Delay 10]
        ++ transaction 0x06 /\
    instructions t = Some [0x30; displayControl; 0x01; 0x06] /\
    encodes_display_control displayControl (displayStatus_ST7920 g)
      (underlineCursorStatus_ST7920 g) (blinkCursorStatus_ST7920 g) /\
    instructions (trace_of (clearCharacterDisplay_ST7920 g')) = Some [0x01] /\
    instructions (trace_of (setEntryMode_ST7920 "C" "R" g')) = Some [0x06].
Proof.
  destruct g as [c d u b].
  exists (with_instructionSet "B" (mkGlobals c d u b)).
  destruct d, u, b; eexists _, _;
    (split; [reflexivity|]); (split; [reflexivity|]); (split; [reflexivity|]);
    repeat split.
Qed.

(** ** Text renderer *)

Lemma setCursor_total (arg : Z) (g : globals) :
  setCursor_ST7920 arg g = Some (tt, g, trace_of (setCursor_ST7920 arg g)).
Proof.
  unfold setCursor_ST7920, bind, emit.
  repeat match goal with
         | |- context [ if ?b then _ else _ ] => destruct b
         end; reflexivity.
Qed.


Lemma skipn_nth_error {A : Type} (l : list A) (n : nat) (x : A) :
  nth_error l n = Some x -> skipn n l = x :: skipn (S n) l.
Proof.
  revert l. induction n as [|n IH]; intros [|y l] H; try discriminate.
  - injection H as ->. reflexivity.
  - cbn [nth_error] in H. apply IH in H. exact H.
Qed.

Lemma to_byte_add_l (a b : Z) : to_byte (to_byte a + b) = to_byte (a + b).
Proof. unfold to_byte. apply Z.add_mod_idemp_l. lia. Qed.

Section HalfWidth.

Variable char_is_signed : bool.
Variable chars : list ascii.


Lemma printHalfCharacters_loop_step (n : nat) (i p : Z) (g : globals) (c : ascii) :
  nth_error chars (Z.to_nat i) = Some c ->
  printHalfCharacters_loop char_is_signed chars (S n) i p g =
    match printHalfCharacters_loop char_is_signed chars n (i + 1) (to_byte (p + 1)) g with
    | Some (r, g', t) =>
        Some (r, g',
              (if is_row_start p then trace_of (setCursor_ST7920 (p / 2) g) else [])
              ++ transaction (Z.lor 0x200 (char_to_int char_is_signed c)) ++ t)
    | None => None
    end.
Proof.
  intros Hc. cbn [printHalfCharacters_loop]. unfold bind at 1.
  fold (is_row_start p).
  destruct (is_row_start p).
  - rewrite setCursor_total. unfold bind, read_array. rewrite Hc. cbn [ret].
    rewrite sendInstruction_run.
    destruct (printHalfCharacters_loop char_is_signed chars n (i + 1) (to_byte (p + 1)) g)
      as [[[r g'] t]|]; reflexivity.
  - cbn [ret]. unfold bind, read_array. rewrite Hc. cbn [ret].
    rewrite sendInstruction_run.
    destruct (printHalfCharacters_loop char_is_signed chars n (i + 1) (to_byte (p + 1)) g)
      as [[[r g'] t]|]; reflexivity.
Qed.

Lemma array_element (i : Z) (n : nat) :
  0 <= i -> (Z.to_nat i + S n <= List.length chars)%nat ->
  exists c, nth_error chars (Z.to_nat i) = Some c.
Proof.
  intros Hi Hlen. destruct (nth_error chars (Z.to_nat i)) as [c|] eqn:E.
  - exists c. reflexivity.
  - apply nth_error_None in E. lia.
Qed.



End HalfWidth.

Lemma bind_run {A B : Type} (m : M A) (k : A -> M B) (g g1 : globals) (a : A)
      (t1 : list event) :
  m g = Some (a, g1, t1) ->
  bind m k g =
    match k a g1 with
    | Some (b, g2, t2) => Some (b, g2, t1 ++ t2)
    | None => None
    end.
Proof. intros H. unfold bind. rewrite H. reflexivity. Qed.

Lemma padding_run (p : Z) (g : globals) :
  (if p mod 2 =? 1 then sendInstruction_ST7920 0x220 else ret tt) g =
    Some (tt, g, padding p).
Proof. unfold padding. destruct (p mod 2 =? 1); reflexivity. Qed.










(** * Further properties *)

(** ** The transaction encoder, in both directions *)




Lemma to_short_mod (z m : Z) : 0 < m -> 65536 mod m = 0 -> to_short z mod m = z mod m.
Proof.
  intros Hm Hdiv. unfold to_short. rewrite (Z.mod_eq (z + 32768) 65536) by lia.
  apply Z.mod_divide in Hdiv; [|lia]. destruct Hdiv as [q Hq].
  replace (z + 32768 - 65536 * ((z + 32768) / 65536) - 32768) with
    (z + (- q * ((z + 32768) / 65536)) * m) by (rewrite Hq; ring).
  apply Z.mod_add. lia.
Qed.

(** X1: whatever the argument, the three bytes [sendInstruction_ST7920]
    transfers form a well-formed transaction (prefix 11111, low bit 0, low
    nibbles 0) that the controller reads back as the low ten bits of the
    argument; the driver's variables are untouched. *)
Theorem sendInstruction_round_trip (arg : Z) (g : globals) :
  exists b1 b2 b3 : Z,
    sendInstruction_ST7920 arg g =
      Some (tt, g, [SPI_transfer b1; SPI_transfer b2; SPI_transfer b3;
                    DelayMicroseconds 80]) /\
    decode_transaction b1 b2 b3 = Some (arg mod 1024).
Proof.
  exists (byte1 (to_short arg)), (byte2 (to_short arg)), (byte3 (to_short arg)).
  rewrite sendInstruction_run, transaction_bytes, decode_bytes, to_short_mod_1024.
  split; reflexivity.
Qed.

(** X2: two 10-bit instructions for which [sendInstruction_ST7920]
    transfers the same three bytes are the same instruction. *)
Theorem sendInstruction_injective (i j : Z) (g : globals) :
  0 <= i < 1024 -> 0 <= j < 1024 ->
  transferred (trace_of (sendInstruction_ST7920 i g)) =
  transferred (trace_of (sendInstruction_ST7920 j g)) ->
  i = j.
Proof.
  intros Hi Hj H. rewrite !sendInstruction_run in H. cbn [trace_of] in H.
  rewrite !transaction_bytes in H. cbn [transferred] in H.
  injection H as H1 H2 H3.
  pose proof (decode_bytes (to_short i)) as Di.
  pose proof (decode_bytes (to_short j)) as Dj.
  rewrite H1, H2, H3, Dj in Di. injection Di as Di.
  rewrite !to_short_mod_1024, !Z.mod_small in Di by lia. symmetry. exact Di.
Qed.



Lemma sendInstruction_injective_witness : 0x30 = 0x30.
Proof.
  apply (sendInstruction_injective 0x30 0x30 startup); [lia | lia | reflexivity].
Defined.

Lemma land_0xF0 (i : Z) : Z.land i 0xF0 = i mod 256 - i mod 16.
Proof.
  assert (H : Z.land i (Z.ones 8) =
              Z.lor (Z.land i (Z.shiftl (Z.ones 4) 4)) (Z.land i (Z.ones 4)))
    by bit_by_bit.
  rewrite Z.or_to_plus in H by bit_by_bit.
  rewrite !Z.land_ones in H by lia.
  change (Z.shiftl (Z.ones 4) 4) with 0xF0 in H. change (2 ^ 8) with 256 in H.
  change (2 ^ 4) with 16 in H. lia.
Qed.

Lemma shiftl4_land_0xF0 (i : Z) : Z.land (Z.shiftl i 4) 0xF0 = 16 * (i mod 16).
Proof.
  assert (H : Z.land (Z.shiftl i 4) (Z.shiftl (Z.ones 4) 4) =
              Z.shiftl (Z.land i (Z.ones 4)) 4) by bit_by_bit.
  change (Z.shiftl (Z.ones 4) 4) with 0xF0 in H. rewrite H.
  rewrite Z.land_ones, Z.shiftl_mul_pow2 by lia.
  change (2 ^ 4) with 16. lia.
Qed.

(** X3: whatever the argument, the second byte transferred is DB7-DB4 in
    the high nibble over a zero low nibble, and the third byte is DB3-DB0 in
    the high nibble over a zero low nibble. *)
Theorem sendInstruction_data_bytes (arg : Z) (g : globals) :
  exists b1 b2 b3 : Z,
    sendInstruction_ST7920 arg g =
      Some (tt, g, [SPI_transfer b1; SPI_transfer b2; SPI_transfer b3;
                    DelayMicroseconds 80]) /\
    b2 = 16 * ((arg / 16) mod 16) /\
    b3 = 16 * (arg mod 16).
Proof.
  exists (byte1 (to_short arg)), (byte2 (to_short arg)), (byte3 (to_short arg)).
  rewrite sendInstruction_run, transaction_bytes. split; [reflexivity|].
  unfold byte2, byte3. rewrite land_0xF0, shiftl4_land_0xF0.
  pose proof (Z.mod_pos_bound (to_short arg) 256 ltac:(lia)).
  pose proof (Z.mod_pos_bound (to_short arg) 16 ltac:(lia)).
  rewrite !to_byte_small.
  - rewrite !to_short_mod by (try lia; reflexivity).
    split; [|reflexivity].
    replace 256 with (16 * 16) by reflexivity.
    rewrite Z.rem_mul_r by lia. lia.
  - lia.
  - assert (to_short arg mod 16 <= to_short arg mod 256).
    { replace 256 with (16 * 16) by reflexivity.
      rewrite Z.rem_mul_r by lia.
      pose proof (Z.mod_pos_bound (to_short arg / 16) 16 ltac:(lia)). lia. }
    lia.
Qed.

(** ** Text output in general *)




Lemma instructions_app (t1 : list event) :
  forall (l1 : list Z) (t2 : list event),
    instructions t1 = Some l1 ->
    instructions (t1 ++ t2) = option_map (app l1) (instructions t2).
Proof.
  remember (List.length t1) as n eqn:Hn. revert t1 Hn.
  induction n as [n IH] using lt_wf_ind. intros t1 Hn l1 t2 H.
  destruct t1 as [|e t1].
  - injection H as <-. cbn [app]. destruct (instructions t2); reflexivity.
  - assert (Hskip : forall l t, instructions t1 = Some l ->
                      instructions (t1 ++ t) = option_map (app l) (instructions t)).
    { intros l t Hl. apply (IH (List.length t1)); [cbn [List.length] in Hn; lia|reflexivity|exact Hl]. }
    destruct e; try (cbn [app instructions] in *; apply Hskip; exact H).
    destruct t1 as [|[| | b2 | | |] [|[| | b3 | | |] t1]]; try discriminate H.
    cbn [app instructions] in *.
    destruct (decode_transaction data b2 b3) as [i|]; [|discriminate H].
    destruct (instructions t1) as [l|] eqn:Hl; [|discriminate H].
    injection H as <-.
    rewrite (IH (List.length t1)) with (l1 := l) (t1 := t1);
      [|cbn [List.length] in Hn; lia|reflexivity|exact Hl].
    destruct (instructions t2); reflexivity.
Qed.

Lemma setCursor_events (arg : Z) (g : globals) :
  setCursor_ST7920 arg g = Some (tt, g, cursor_events arg).
Proof.
  unfold cursor_events, setCursor_ST7920, bind, emit.
  repeat match goal with
         | |- context [ if ?b then _ else _ ] => destruct b
         end; reflexivity.
Qed.

Lemma half_code_decoded (char_is_signed : bool) (c : ascii) :
  Z.lor 0x200 (char_to_int char_is_signed c) mod 1024 = half_code char_is_signed c.
Proof.
  destruct char_is_signed, c as [[] [] [] [] [] [] [] []]; reflexivity.
Qed.

Lemma lor_0x200 (x : Z) : 0 <= x < 256 -> Z.lor 0x200 x = 0x200 + x.
Proof.
  intros Hx. apply Z.or_to_plus. apply Z.bits_inj'. intros n Hn.
  rewrite Z.land_spec, Z.bits_0. change 0x200 with (2 ^ 9).
  rewrite Z.pow2_bits_eqb by lia.
  destruct (Z.eqb_spec 9 n) as [<-|]; [|reflexivity].
  rewrite <- (Z.mod_small x (2 ^ 8)) by (change (2 ^ 8) with 256; lia).
  rewrite Z.mod_pow2_bits_high by lia. reflexivity.
Qed.

Lemma full_codes_decoded (c : Z) :
  [Z.lor 0x200 (Z.land (Z.shiftr c 8) 0xFF) mod 1024;
   Z.lor 0x200 (Z.land c 0xFF) mod 1024] = full_codes c.
Proof.
  unfold full_codes. change 0xFF with (Z.ones 8).
  rewrite !Z.land_ones, Z.shiftr_div_pow2 by lia.
  change (2 ^ 8) with 256.
  pose proof (Z.mod_pos_bound (c / 256) 256 ltac:(lia)).
  pose proof (Z.mod_pos_bound c 256 ltac:(lia)).
  rewrite !lor_0x200 by lia.
  rewrite (Z.mod_small (0x200 + (c / 256) mod 256)), (Z.mod_small (0x200 + c mod 256)) by lia.
  reflexivity.
Qed.

Lemma to_byte_range (z : Z) : 0 <= to_byte z < 256.
Proof. unfold to_byte. apply Z.mod_pos_bound. lia. Qed.

Lemma to_byte_idem (z : Z) : to_byte (to_byte z) = to_byte z.
Proof. apply to_byte_small, to_byte_range. Qed.

Lemma cursor_events_to_byte (x : Z) : cursor_events (to_byte x) = cursor_events x.
Proof. unfold cursor_events, setCursor_ST7920. rewrite to_byte_idem. reflexivity. Qed.


(** What [setCursor_ST7920] delivers: one set-DDRAM-address instruction
    for a position up to 31, nothing beyond. *)
Lemma instructions_cursor_events (x : Z) :
  exists l : list Z,
    instructions (cursor_events x) = Some l /\
    Forall (fun i => is_set_DDRAM_address i = true) l /\
    (to_byte x <= 31 -> exists a, l = [0x80 + a] /\ DDRAM_address_set startup (to_byte x) = Some a) /\
    (32 <= to_byte x -> l = []).
Proof.
  rewrite <- cursor_events_to_byte. pose proof (to_byte_range x) as Hq.
  set (q := to_byte x) in *. unfold cursor_events.
  destruct (Z_le_gt_dec q 31) as [Hle|Hgt].
  - destruct (setCursor_sends q startup) as (a & Hrun & Ha & _); [lia|].
    rewrite Hrun. cbn [trace_of instructions]. rewrite instructions_one.
    destruct (set_DDRAM_address_fields a) as (Hm & _); [lia|].
    rewrite Hm, lor_0x80 by lia.
    exists [0x80 + a]. split; [reflexivity|]. split; [|split].
    + constructor; [|constructor]. unfold is_set_DDRAM_address.
      apply andb_true_intro. split; [apply Z.leb_le|apply Z.ltb_lt]; lia.
    + intros _. exists a. split; [reflexivity|].
      apply DDRAM_address_set_sends; assumption.
    + lia.
  - rewrite setCursor_beyond by lia. exists []. cbn [trace_of instructions].
    split; [reflexivity|]. split; [constructor|]. split; [lia|reflexivity].
Qed.

Lemma data_instructions_app (l1 l2 : list Z) :
  data_instructions (l1 ++ l2) = data_instructions l1 ++ data_instructions l2.
Proof. apply filter_app. Qed.

Lemma data_instructions_cursor (l : list Z) :
  Forall (fun i => is_set_DDRAM_address i = true) l -> data_instructions l = [].
Proof.
  induction 1 as [|i l Hi _ IH]; [reflexivity|].
  cbn [data_instructions filter]. fold (data_instructions l). rewrite IH.
  unfold is_set_DDRAM_address in Hi. apply andb_prop in Hi. destruct Hi as [H1 H2].
  apply Z.leb_le in H1. apply Z.ltb_lt in H2.
  replace (is_data i) with false; [reflexivity|].
  unfold is_data. symmetry.
  rewrite <- (Z.mod_small i (2 ^ 8)) by (change (2 ^ 8) with 256; lia).
  apply Z.mod_pow2_bits_high. lia.
Qed.

Lemma half_code_is_data (char_is_signed : bool) (c : ascii) :
  is_data (half_code char_is_signed c) = true.
Proof. destruct char_is_signed, c as [[] [] [] [] [] [] [] []]; reflexivity. Qed.

Lemma is_data_0x200 (x : Z) : 0 <= x < 256 -> is_data (0x200 + x) = true.
Proof.
  intros Hx. unfold is_data. rewrite <- lor_0x200 by exact Hx.
  rewrite Z.lor_spec. reflexivity.
Qed.

Lemma full_codes_are_data (c : Z) : data_instructions (full_codes c) = full_codes c.
Proof.
  unfold full_codes, data_instructions. cbn [filter].
  rewrite !is_data_0x200 by (apply Z.mod_pos_bound; lia). reflexivity.
Qed.

Lemma cursor_or_data_app (l1 l2 : list Z) :
  cursor_or_data l1 -> cursor_or_data l2 -> cursor_or_data (l1 ++ l2).
Proof. intros H1 H2. apply Forall_app. split; assumption. Qed.

Lemma cursor_or_data_cursor (l : list Z) :
  Forall (fun i => is_set_DDRAM_address i = true) l -> cursor_or_data l.
Proof. intros H. eapply Forall_impl; [|exact H]. intros i Hi. right. exact Hi. Qed.

Lemma cursor_or_data_no_switch (l : list Z) :
  cursor_or_data l -> filter is_mode_switch l = [].
Proof.
  induction 1 as [|i l Hi _ IH]; [reflexivity|].
  cbn [filter]. rewrite IH.
  replace (is_mode_switch i) with false; [reflexivity|].
  symmetry. unfold is_mode_switch.
  destruct (Z.eqb_spec i 0x34) as [->|]; [destruct Hi as [Hi|Hi]; discriminate Hi|].
  destruct (Z.eqb_spec i 0x30) as [->|]; [destruct Hi as [Hi|Hi]; discriminate Hi|].
  reflexivity.
Qed.

Section HalfLoop.

Variable char_is_signed : bool.


Lemma instructions_half_loop (cs : list ascii) :
  forall p : Z,
  exists l : list Z,
    instructions (half_loop_events char_is_signed cs p) = Some l /\
    data_instructions l = map (half_code char_is_signed) cs /\
    cursor_or_data l.
Proof.
  induction cs as [|c cs IH]; intros p.
  - exists []. repeat split. constructor.
  - destruct (IH (to_byte (p + 1))) as (l & Hl & Hdata & Hall).
    cbn [half_loop_events].
    assert (Hrest :
      instructions (transaction (Z.lor 0x200 (char_to_int char_is_signed c)) ++
                    half_loop_events char_is_signed cs (to_byte (p + 1))) =
      Some (half_code char_is_signed c :: l)).
    { rewrite instructions_transaction, Hl, half_code_decoded. reflexivity. }
    destruct (is_row_start p).
    + destruct (instructions_cursor_events (p / 2)) as (lc & Hlc & Hcur & _).
      rewrite (instructions_app _ lc _ Hlc), Hrest. cbn [option_map].
      exists (lc ++ half_code char_is_signed c :: l). split; [reflexivity|]. split.
      * rewrite data_instructions_app, (data_instructions_cursor lc Hcur).
        cbn [app data_instructions filter]. rewrite half_code_is_data.
        fold (data_instructions l). rewrite Hdata. reflexivity.
      * apply cursor_or_data_app; [apply cursor_or_data_cursor; exact Hcur|].
        constructor; [left; apply half_code_is_data|exact Hall].
    + cbn [app]. rewrite Hrest.
      exists (half_code char_is_signed c :: l). split; [reflexivity|]. split.
      * cbn [data_instructions filter]. rewrite half_code_is_data.
        fold (data_instructions l). rewrite Hdata. reflexivity.
      * constructor; [left; apply half_code_is_data|exact Hall].
Qed.

Variable chars : list ascii.

Lemma printHalfCharacters_loop_run (n : nat) :
  forall (i p : Z) (g : globals),
    0 <= i -> 0 <= p < 256 ->
    (Z.to_nat i + n <= List.length chars)%nat ->
    printHalfCharacters_loop char_is_signed chars n i p g =
      Some (to_byte (p + Z.of_nat n), g,
            half_loop_events char_is_signed (firstn n (skipn (Z.to_nat i) chars)) p).
Proof.
  induction n as [|n IH]; intros i p g Hi Hp Hlen.
  - cbn [printHalfCharacters_loop ret Z.of_nat firstn half_loop_events].
    rewrite Z.add_0_r, to_byte_small by exact Hp. reflexivity.
  - destruct (array_element chars i n Hi Hlen) as [c Hc].
    rewrite (printHalfCharacters_loop_step char_is_signed chars n i p g c Hc).
    rewrite IH; [|lia|apply to_byte_range|lia].
    rewrite to_byte_add_l. replace (p + 1 + Z.of_nat n) with (p + Z.of_nat (S n)) by lia.
    rewrite (skipn_nth_error chars (Z.to_nat i) c Hc).
    replace (Z.to_nat (i + 1)) with (S (Z.to_nat i)) by lia.
    cbn [firstn half_loop_events]. rewrite setCursor_events. reflexivity.
Qed.

Lemma printHalfCharacters_loop_undefined (n : nat) :
  forall (i p : Z) (g : globals),
    0 <= i -> (Z.to_nat i <= List.length chars)%nat ->
    (List.length chars < Z.to_nat i + n)%nat ->
    printHalfCharacters_loop char_is_signed chars n i p g = None.
Proof.
  induction n as [|n IH]; intros i p g Hi Hle Hlen; [lia|].
  destruct (nth_error chars (Z.to_nat i)) as [c|] eqn:Hc.
  - rewrite (printHalfCharacters_loop_step char_is_signed chars n i p g c Hc).
    assert (Z.to_nat i < List.length chars)%nat
      by (apply nth_error_Some; rewrite Hc; discriminate).
    rewrite IH; [reflexivity|lia|lia|lia].
  - cbn [printHalfCharacters_loop]. unfold bind at 1.
    destruct ((p =? 16) || (p =? 32) || (p =? 48));
      [rewrite setCursor_events|cbn [ret]];
      unfold bind, read_array; rewrite Hc; reflexivity.
Qed.

(** The whole of [printHalfCharacters_ST7920] when the array holds the
    [length] characters. *)
Lemma printHalfCharacters_run (length row column : Z) (g : globals) :
  0 <= length <= 255 ->
  (Z.to_nat length <= List.length chars)%nat ->
  printHalfCharacters_ST7920 char_is_signed chars length row column g =
    Some (tt, g,
          cursor_events (half_position row column / 2)
          ++ padding (half_position row column)
          ++ half_loop_events char_is_signed (firstn (Z.to_nat length) chars)
               (half_position row column)
          ++ padding (running_position row column length)).
Proof.
  intros Hlength Hchars. unfold printHalfCharacters_ST7920.
  fold (half_position row column). rewrite to_byte_small by lia.
  erewrite bind_run by apply setCursor_events.
  erewrite bind_run by apply padding_run.
  erewrite bind_run
    by (apply printHalfCharacters_loop_run;
        [lia|unfold half_position; apply to_byte_range|exact Hchars]).
  rewrite Z2Nat.id by lia. fold (running_position row column length).
  rewrite padding_run. reflexivity.
Qed.

End HalfLoop.

(** The [j]-th running position is the start position plus [j], as a
    byte. *)
Lemma positions_from_nth (n : nat) :
  forall (p : Z) (j : nat),
    0 <= p < 256 -> (j < n)%nat ->
    nth_error (positions_from p n) j = Some (to_byte (p + Z.of_nat j)).
Proof.
  induction n as [|n IH]; intros p j Hp Hj; [lia|].
  destruct j as [|j]; cbn [positions_from nth_error].
  - cbn [Z.of_nat]. rewrite Z.add_0_r, to_byte_small by exact Hp. reflexivity.
  - rewrite IH by (try apply to_byte_range; lia).
    rewrite to_byte_add_l. f_equal. f_equal. lia.
Qed.




Lemma instructions_padding (p : Z) :
  instructions (padding p) = Some (if p mod 2 =? 1 then [0x220] else []).
Proof. unfold padding. destruct (p mod 2 =? 1); reflexivity. Qed.



Lemma printHalfCharacters_delivers
        (char_is_signed : bool) (chars : list ascii) (length row column : Z)
        (g : globals) :
  0 <= length <= 255 ->
  (Z.to_nat length <= List.length chars)%nat ->
  exists (t : list event) (l : list Z),
    printHalfCharacters_ST7920 char_is_signed chars length row column g =
      Some (tt, g, t) /\
    instructions t = Some l /\
    data_instructions l =
      (if half_position row column mod 2 =? 1 then [0x220] else [])
      ++ map (half_code char_is_signed) (firstn (Z.to_nat length) chars)
      ++ (if running_position row column length mod 2 =? 1 then [0x220] else []) /\
    cursor_or_data l.
Proof.
  intros Hlength Hchars.
  destruct (instructions_cursor_events (half_position row column / 2))
    as (lc & Hlc & Hcur & _).
  destruct (instructions_half_loop char_is_signed (firstn (Z.to_nat length) chars)
              (half_position row column)) as (ll & Hll & Hdata & Hall).
  eexists _, (lc ++ (if half_position row column mod 2 =? 1 then [0x220] else [])
              ++ ll ++ (if running_position row column length mod 2 =? 1 then [0x220] else [])).
  split; [apply printHalfCharacters_run; assumption|]. split; [|split].
  - rewrite (instructions_app _ _ _ Hlc).
    rewrite (instructions_app _ _ _ (instructions_padding _)).
    rewrite (instructions_app _ _ _ Hll), instructions_padding. reflexivity.
  - rewrite !data_instructions_app, (data_instructions_cursor lc Hcur), Hdata.
    cbn [app].
    destruct (half_position row column mod 2 =? 1),
             (running_position row column length mod 2 =? 1); reflexivity.
  - assert (Hpad : forall b : bool, cursor_or_data (if b then [0x220] else [])).
    { intros [|]; constructor; [left; reflexivity|constructor]. }
    repeat apply cursor_or_data_app; auto using cursor_or_data_cursor.
Qed.

(** X5: when the array holds the [length] characters, the instructions
    [printHalfCharacters_ST7920] delivers with RS set are, in order, a
    space if the start position is odd, one instruction per character in
    the order of the array, and a space if the final position is odd; every
    other instruction delivered is a set-DDRAM-address instruction with an
    address up to 31. *)
Theorem printHalfCharacters_data
        (char_is_signed : bool) (chars : list ascii) (length row column : Z)
        (g : globals) :
  0 <= length <= 255 ->
  (Z.to_nat length <= List.length chars)%nat ->
  exists (t : list event) (l : list Z),
    printHalfCharacters_ST7920 char_is_signed chars length row column g =
      Some (tt, g, t) /\
    instructions t = Some l /\
    data_instructions l =
      (if half_position row column mod 2 =? 1 then [0x220] else [])
      ++ map (half_code char_is_signed) (firstn (Z.to_nat length) chars)
      ++ (if running_position row column length mod 2 =? 1 then [0x220] else []) /\
    cursor_or_data l.
Proof. apply printHalfCharacters_delivers. Qed.

Lemma printHalfCharacters_data_witness :
  exists (t : list event) (l : list Z),
    printHalfCharacters_ST7920 true ["H"; "o"; "l"; "a"]%char 4 1 1 startup =
      Some (tt, startup, t) /\
    instructions t = Some l /\
    data_instructions l =
      (if half_position 1 1 mod 2 =? 1 then [0x220] else [])
      ++ map (half_code true) (firstn (Z.to_nat 4) ["H"; "o"; "l"; "a"]%char)
      ++ (if running_position 1 1 4 mod 2 =? 1 then [0x220] else []) /\
    cursor_or_data l.
Proof.
  apply (printHalfCharacters_data true ["H"; "o"; "l"; "a"]%char 4 1 1 startup).
  - lia.
  - simpl. lia.
Defined.

(** X6: [printHalfCharacters_ST7920] changes none of the driver's variables
    and delivers no instruction-set selection. *)
Theorem printHalfCharacters_keeps_mode
        (char_is_signed : bool) (chars : list ascii) (length row column : Z)
        (g : globals) :
  0 <= length <= 255 ->
  (Z.to_nat length <= List.length chars)%nat ->
  exists t : list event,
    printHalfCharacters_ST7920 char_is_signed chars length row column g =
      Some (tt, g, t) /\
    mode_switches t = Some 0%nat.
Proof.
  intros Hlength Hchars.
  destruct (printHalfCharacters_delivers char_is_signed chars length row column g
              Hlength Hchars) as (t & l & Hrun & Hl & _ & Hall).
  exists t. split; [exact Hrun|].
  unfold mode_switches. rewrite Hl. cbn [option_map].
  rewrite (cursor_or_data_no_switch l Hall). reflexivity.
Qed.

Lemma printHalfCharacters_keeps_mode_witness :
  exists t : list event,
    printHalfCharacters_ST7920 true ["H"; "o"; "l"; "a"]%char 4 1 1 startup =
      Some (tt, startup, t) /\
    mode_switches t = Some 0%nat.
Proof.
  apply (printHalfCharacters_keeps_mode true ["H"; "o"; "l"; "a"]%char 4 1 1 startup).
  - lia.
  - simpl. lia.
Defined.

Lemma to_byte_mod_2 (z : Z) : to_byte z mod 2 = z mod 2.
Proof.
  unfold to_byte. replace 256 with (2 * 128) by reflexivity.
  rewrite Z.rem_mul_r by lia.
  rewrite (Z.mul_comm 2), Z.mod_add by lia. apply Z.mod_mod. lia.
Qed.

(** X7: [printHalfCharacters_ST7920] delivers an even number of
    instructions with RS set: with the spaces before and after, half-width
    characters go out in pairs. *)
Theorem printHalfCharacters_writes_pairs
        (char_is_signed : bool) (chars : list ascii) (length row column : Z)
        (g : globals) :
  0 <= length <= 255 ->
  (Z.to_nat length <= List.length chars)%nat ->
  exists (t : list event) (l : list Z) (pairs : nat),
    printHalfCharacters_ST7920 char_is_signed chars length row column g =
      Some (tt, g, t) /\
    instructions t = Some l /\
    List.length (data_instructions l) = (2 * pairs)%nat.
Proof.
  intros Hlength Hchars.
  destruct (printHalfCharacters_delivers char_is_signed chars length row column g
              Hlength Hchars) as (t & l & Hrun & Hl & Hdata & _).
  exists t, l, (Z.to_nat ((Z.of_nat (List.length (data_instructions l))) / 2)).
  split; [exact Hrun|]. split; [exact Hl|].
  rewrite Hdata, !length_app, length_map, firstn_length_le by exact Hchars.
  unfold running_position. rewrite to_byte_mod_2.
  set (p := half_position row column).
  destruct (Z.eqb_spec (p mod 2) 1), (Z.eqb_spec ((p + length) mod 2) 1);
    cbn [List.length]; clearbody p; Z.div_mod_to_equations; lia.
Qed.

Lemma printHalfCharacters_writes_pairs_witness :
  exists (t : list event) (l : list Z) (pairs : nat),
    printHalfCharacters_ST7920 true ["H"; "o"; "l"; "a"]%char 3 1 1 startup =
      Some (tt, startup, t) /\
    instructions t = Some l /\
    List.length (data_instructions l) = (2 * pairs)%nat.
Proof.
  apply (printHalfCharacters_writes_pairs true ["H"; "o"; "l"; "a"]%char 3 1 1 startup).
  - lia.
  - simpl. lia.
Defined.

(** X8: when the array holds fewer than [length] characters,
    [printHalfCharacters_ST7920] reads past its end: there is no check of
    [length] against the array. *)
Theorem printHalfCharacters_short_array
        (char_is_signed : bool) (chars : list ascii) (length row column : Z)
        (g : globals) :
  0 <= length <= 255 ->
  (List.length chars < Z.to_nat length)%nat ->
  printHalfCharacters_ST7920 char_is_signed chars length row column g = None.
Proof.
  intros Hlength Hchars. unfold printHalfCharacters_ST7920.
  rewrite (to_byte_small length) by lia.
  erewrite bind_run by apply setCursor_events.
  erewrite bind_run by apply padding_run.
  unfold bind at 1.
  rewrite printHalfCharacters_loop_undefined; [reflexivity|lia|cbn; lia|cbn; lia].
Qed.

Lemma printHalfCharacters_short_array_witness :
  printHalfCharacters_ST7920 true ["H"; "o"; "l"; "a"]%char 5 0 0 startup = None.
Proof.
  apply (printHalfCharacters_short_array true ["H"; "o"; "l"; "a"]%char 5 0 0 startup).
  - lia.
  - simpl. lia.
Defined.

(** ** Full-width output *)

Lemma is_full_row_start_range (q : Z) :
  is_full_row_start q = true -> 0 <= q <= 31.
Proof.
  unfold is_full_row_start. intros H.
  destruct (Z.eqb_spec q 8); [lia|]. destruct (Z.eqb_spec q 16); [lia|].
  destruct (Z.eqb_spec q 24); [lia|discriminate].
Qed.

Section FullLoop.

Variable chars : list Z.

Lemma printFullCharacters_loop_step (n : nat) (i p : Z) (g : globals) (c : Z) :
  nth_error chars (Z.to_nat i) = Some c ->
  printFullCharacters_loop chars (S n) i p g =
    match printFullCharacters_loop chars n (i + 1) (to_byte (p + 1)) g with
    | Some (r, g', t) =>
        Some (r, g',
              (if is_full_row_start p then cursor_events p else [])
              ++ transaction (Z.lor 0x200 (Z.land (Z.shiftr c 8) 0xFF))
              ++ transaction (Z.lor 0x200 (Z.land c 0xFF)) ++ t)
    | None => None
    end.
Proof.
  intros Hc. cbn [printFullCharacters_loop]. unfold bind at 1.
  fold (is_full_row_start p).
  destruct (is_full_row_start p);
    [rewrite setCursor_events|cbn [ret]];
    unfold bind, read_array; rewrite Hc; cbn [ret];
    rewrite !sendInstruction_run;
    destruct (printFullCharacters_loop chars n (i + 1) (to_byte (p + 1)) g)
      as [[[r g'] t]|]; reflexivity.
Qed.

Lemma printFullCharacters_loop_run (n : nat) :
  forall (i p : Z) (g : globals),
    0 <= i -> 0 <= p < 256 ->
    (Z.to_nat i + n <= List.length chars)%nat ->
    printFullCharacters_loop chars n i p g =
      Some (to_byte (p + Z.of_nat n), g,
            full_loop_events (firstn n (skipn (Z.to_nat i) chars)) p).
Proof.
  induction n as [|n IH]; intros i p g Hi Hp Hlen.
  - cbn [printFullCharacters_loop ret Z.of_nat firstn full_loop_events].
    rewrite Z.add_0_r, to_byte_small by exact Hp. reflexivity.
  - assert (Hc : exists c, nth_error chars (Z.to_nat i) = Some c).
    { destruct (nth_error chars (Z.to_nat i)) as [c|] eqn:E; [exists c; reflexivity|].
      apply nth_error_None in E. lia. }
    destruct Hc as [c Hc].
    rewrite (printFullCharacters_loop_step n i p g c Hc).
    rewrite IH; [|lia|apply to_byte_range|lia].
    rewrite to_byte_add_l. replace (p + 1 + Z.of_nat n) with (p + Z.of_nat (S n)) by lia.
    rewrite (skipn_nth_error chars (Z.to_nat i) c Hc).
    replace (Z.to_nat (i + 1)) with (S (Z.to_nat i)) by lia.
    reflexivity.
Qed.

Lemma printFullCharacters_loop_undefined (n : nat) :
  forall (i p : Z) (g : globals),
    0 <= i -> (Z.to_nat i <= List.length chars)%nat ->
    (List.length chars < Z.to_nat i + n)%nat ->
    printFullCharacters_loop chars n i p g = None.
Proof.
  induction n as [|n IH]; intros i p g Hi Hle Hlen; [lia|].
  destruct (nth_error chars (Z.to_nat i)) as [c|] eqn:Hc.
  - rewrite (printFullCharacters_loop_step n i p g c Hc).
    assert (Z.to_nat i < List.length chars)%nat
      by (apply nth_error_Some; rewrite Hc; discriminate).
    rewrite IH; [reflexivity|lia|lia|lia].
  - cbn [printFullCharacters_loop]. unfold bind at 1.
    destruct ((p =? 8) || (p =? 16) || (p =? 24));
      [rewrite setCursor_events|cbn [ret]];
      unfold bind, read_array; rewrite Hc; reflexivity.
Qed.

Lemma printFullCharacters_run (length row column : Z) (g : globals) :
  0 <= length <= 255 ->
  (Z.to_nat length <= List.length chars)%nat ->
  printFullCharacters_ST7920 chars length row column g =
    Some (tt, g,
          cursor_events (full_position row column)
          ++ full_loop_events (firstn (Z.to_nat length) chars)
               (full_position row column)).
Proof.
  intros Hlength Hchars. unfold printFullCharacters_ST7920.
  fold (full_position row column). rewrite to_byte_small by lia.
  erewrite bind_run by apply setCursor_events.
  erewrite bind_run
    by (apply printFullCharacters_loop_run;
        [lia|unfold full_position; apply to_byte_range|exact Hchars]).
  cbn [ret]. rewrite !app_nil_r. reflexivity.
Qed.

End FullLoop.


Lemma instructions_full_loop (cs : list Z) :
  forall p : Z,
  exists l : list Z,
    instructions (full_loop_events cs p) = Some l /\
    data_instructions l = flat_map full_codes cs /\
    cursor_or_data l.
Proof.
  induction cs as [|c cs IH]; intros p.
  - exists []. repeat split. constructor.
  - destruct (IH (to_byte (p + 1))) as (l & Hl & Hdata & Hall).
    cbn [full_loop_events].
    assert (Hrest :
      instructions (transaction (Z.lor 0x200 (Z.land (Z.shiftr c 8) 0xFF)) ++
                    transaction (Z.lor 0x200 (Z.land c 0xFF)) ++
                    full_loop_events cs (to_byte (p + 1))) =
      Some (full_codes c ++ l)).
    { rewrite !instructions_transaction, Hl. cbn [option_map].
      rewrite <- full_codes_decoded. reflexivity. }
    assert (Hcodes : cursor_or_data (full_codes c)).
    { unfold full_codes.
      constructor; [left; apply is_data_0x200, Z.mod_pos_bound; lia|].
      constructor; [left; apply is_data_0x200, Z.mod_pos_bound; lia|constructor]. }
    destruct (is_full_row_start p).
    + destruct (instructions_cursor_events p) as (lc & Hlc & Hcur & _).
      rewrite (instructions_app _ lc _ Hlc), Hrest. cbn [option_map].
      exists (lc ++ full_codes c ++ l). split; [reflexivity|]. split.
      * rewrite !data_instructions_app, (data_instructions_cursor lc Hcur),
          full_codes_are_data, Hdata. reflexivity.
      * repeat apply cursor_or_data_app; auto using cursor_or_data_cursor.
    + cbn [app]. rewrite Hrest.
      exists (full_codes c ++ l). split; [reflexivity|]. split.
      * rewrite data_instructions_app, full_codes_are_data, Hdata. reflexivity.
      * apply cursor_or_data_app; assumption.
Qed.



(** X11: when the array holds the [length] characters, the instructions
    [printFullCharacters_ST7920] delivers with RS set are, per character in
    the order of the array, the high byte and then the low byte (RW
    clear, also for a negative [short]); every other instruction is a
    set-DDRAM-address instruction with an address up to 31, none selects an
    instruction set, and no variable of the driver changes. *)
Theorem printFullCharacters_data
        (chars : list Z) (length row column : Z) (g : globals) :
  0 <= length <= 255 ->
  (Z.to_nat length <= List.length chars)%nat ->
  exists (t : list event) (l : list Z),
    printFullCharacters_ST7920 chars length row column g = Some (tt, g, t) /\
    instructions t = Some l /\
    data_instructions l = flat_map full_codes (firstn (Z.to_nat length) chars) /\
    cursor_or_data l /\
    mode_switches t = Some 0%nat.
Proof.
  intros Hlength Hchars.
  destruct (instructions_cursor_events (full_position row column))
    as (lc & Hlc & Hcur & _).
  destruct (instructions_full_loop (firstn (Z.to_nat length) chars)
              (full_position row column)) as (ll & Hll & Hdata & Hall).
  assert (Hl : instructions (cursor_events (full_position row column)
                             ++ full_loop_events (firstn (Z.to_nat length) chars)
                                  (full_position row column)) = Some (lc ++ ll)).
  { rewrite (instructions_app _ _ _ Hlc), Hll. reflexivity. }
  assert (Hcd : cursor_or_data (lc ++ ll))
    by (apply cursor_or_data_app; auto using cursor_or_data_cursor).
  eexists _, (lc ++ ll).
  split; [apply printFullCharacters_run; assumption|].
  split; [exact Hl|]. split; [|split; [exact Hcd|]].
  - rewrite data_instructions_app, (data_instructions_cursor lc Hcur), Hdata. reflexivity.
  - unfold mode_switches. rewrite Hl. cbn [option_map].
    rewrite (cursor_or_data_no_switch _ Hcd). reflexivity.
Qed.

Lemma printFullCharacters_data_witness :
  exists (t : list event) (l : list Z),
    printFullCharacters_ST7920 [-12630; -15925; -18775] 3 0 6 startup =
      Some (tt, startup, t) /\
    instructions t = Some l /\
    data_instructions l =
      flat_map full_codes (firstn (Z.to_nat 3) [-12630; -15925; -18775]) /\
    cursor_or_data l /\
    mode_switches t = Some 0%nat.
Proof.
  apply (printFullCharacters_data [-12630; -15925; -18775] 3 0 6 startup).
  - lia.
  - simpl. lia.
Defined.

(** X12: when the array holds fewer than [length] characters,
    [printFullCharacters_ST7920] reads past its end. *)
Theorem printFullCharacters_short_array
        (chars : list Z) (length row column : Z) (g : globals) :
  0 <= length <= 255 ->
  (List.length chars < Z.to_nat length)%nat ->
  printFullCharacters_ST7920 chars length row column g = None.
Proof.
  intros Hlength Hchars. unfold printFullCharacters_ST7920.
  rewrite (to_byte_small length) by lia.
  erewrite bind_run by apply setCursor_events.
  unfold bind at 1.
  rewrite printFullCharacters_loop_undefined; [reflexivity|lia|cbn; lia|cbn; lia].
Qed.

Lemma printFullCharacters_short_array_witness :
  printFullCharacters_ST7920 [-12630; -15925; -18775] 4 0 0 startup = None.
Proof.
  apply (printFullCharacters_short_array [-12630; -15925; -18775] 4 0 0 startup).
  - lia.
  - simpl. lia.
Defined.

(** ** More on the mode tracker and the basic-set operations *)



(** X13: [chooseInstructionSet_ST7920] with a choice other than 'E' and 'B'
    emits nothing and changes nothing. *)
Theorem chooseInstructionSet_other_choice (choice : ascii) (g : globals) :
  choice <> "E"%char -> choice <> "B"%char ->
  chooseInstructionSet_ST7920 choice g = Some (tt, g, []).
Proof.
  intros HE HB. apply Ascii.eqb_neq in HE, HB.
  unfold chooseInstructionSet_ST7920, bind, get. rewrite HE, HB. reflexivity.
Qed.

Lemma chooseInstructionSet_other_choice_witness :
  chooseInstructionSet_ST7920 "e" startup = Some (tt, startup, []).
Proof.
  apply (chooseInstructionSet_other_choice "e" startup); discriminate.
Defined.

(** X14: from the basic set, selecting the extended set and then the basic
    set again delivers 0b0000110100 and 0b0000110000 and leaves the
    variables as they were. *)
Theorem chooseInstructionSet_round_trip (g : globals) :
  instructionSet_ST7920 g = "B"%char ->
  exists t : list event,
    (chooseInstructionSet_ST7920 "E" ;; chooseInstructionSet_ST7920 "B") g =
      Some (tt, g, t) /\
    instructions t = Some [0x34; 0x30].
Proof.
  destruct g as [c d u b]. cbn [instructionSet_ST7920]. intros ->.
  eexists. split; reflexivity.
Qed.

Lemma chooseInstructionSet_round_trip_witness :
  exists t : list event,
    (chooseInstructionSet_ST7920 "E" ;; chooseInstructionSet_ST7920 "B") startup =
      Some (tt, startup, t) /\
    instructions t = Some [0x34; 0x30].
Proof. apply (chooseInstructionSet_round_trip startup). reflexivity. Defined.

(** X15: when the choice and the tracked mode are each 'E' or 'B', after
    [chooseInstructionSet_ST7920] the tracked mode is the choice; nothing is
    delivered when it already was, and otherwise the one instruction that
    selects the chosen set (0b0000110100 for 'E', 0b0000110000 for 'B'). *)
Theorem chooseInstructionSet_tracks (choice : ascii) (g : globals) :
  choice = "E"%char \/ choice = "B"%char ->
  instructionSet_ST7920 g = "E"%char \/ instructionSet_ST7920 g = "B"%char ->
  exists t : list event,
    chooseInstructionSet_ST7920 choice g =
      Some (tt, with_instructionSet choice g, t) /\
    instructions t =
      Some (if (choice =? instructionSet_ST7920 g)%char then []
            else if (choice =? "E")%char then [0x34] else [0x30]).
Proof.
  destruct g as [c d u b]. cbn [instructionSet_ST7920].
  intros [-> | ->] [-> | ->]; eexists; split; reflexivity.
Qed.

Lemma chooseInstructionSet_tracks_witness :
  exists t : list event,
    chooseInstructionSet_ST7920 "E" startup =
      Some (tt, with_instructionSet "E" startup, t) /\
    instructions t =
      Some (if ("E" =? instructionSet_ST7920 startup)%char then []
            else if ("E" =? "E")%char then [0x34] else [0x30]).
Proof.
  apply (chooseInstructionSet_tracks "E" startup).
  - left. reflexivity.
  - right. reflexivity.
Defined.

Lemma basic_set_operation_after_choice (rest : M unit) (l : list Z) :
  (forall g, exists t, rest g = Some (tt, g, t) /\ instructions t = Some l) ->
  filter is_mode_switch l = [] -> (List.length l <= 1)%nat ->
  basic_set_operation (chooseInstructionSet_ST7920 "B" ;; rest).
Proof.
  intros Hrest Hl Hlen g. unfold bind. rewrite chooseInstructionSet_Basic.
  destruct (instructionSet_ST7920 g =? "E")%char.
  - destruct (Hrest (with_instructionSet "B" g)) as (t & -> & Ht).
    eexists _, _, l. split; [reflexivity|].
    rewrite instructions_transaction, Ht. repeat split; assumption.
  - destruct (Hrest g) as (t & -> & Ht).
    eexists _, _, l. split; [reflexivity|]. cbn [app]. repeat split; assumption.
Qed.

Ltac one_instruction :=
  intros g; eexists; rewrite ?sendInstruction_run;
  split; [reflexivity | try apply instructions_one; reflexivity].

(** X16: [homeCursor_ST7920], [clearCharacterDisplay_ST7920],
    [moveCursor_ST7920], [shiftDisplay_ST7920] and [setEntryMode_ST7920],
    with any arguments, are operations of the basic set in the sense of
    [basic_set_operation]. *)
Theorem basic_set_operations :
  basic_set_operation homeCursor_ST7920 /\
  basic_set_operation clearCharacterDisplay_ST7920 /\
  (forall direction, basic_set_operation (moveCursor_ST7920 direction)) /\
  (forall direction, basic_set_operation (shiftDisplay_ST7920 direction)) /\
  (forall mode direction, basic_set_operation (setEntryMode_ST7920 mode direction)).
Proof.
  split; [|split; [|split; [|split]]].
  - apply (basic_set_operation_after_choice _ [0x02]); [one_instruction|reflexivity|cbn; lia].
  - apply (basic_set_operation_after_choice _ [0x01]); [|reflexivity|cbn; lia].
    intros g. eexists. split; reflexivity.
  - intros direction. unfold moveCursor_ST7920.
    destruct (direction =? "R")%char; [|destruct (direction =? "L")%char].
    + apply (basic_set_operation_after_choice _ [0x14]); [one_instruction|reflexivity|cbn; lia].
    + apply (basic_set_operation_after_choice _ [0x10]); [one_instruction|reflexivity|cbn; lia].
    + apply (basic_set_operation_after_choice _ []); [one_instruction|reflexivity|cbn; lia].
  - intros direction. unfold shiftDisplay_ST7920.
    destruct (direction =? "R")%char; [|destruct (direction =? "L")%char].
    + apply (basic_set_operation_after_choice _ [0x1C]); [one_instruction|reflexivity|cbn; lia].
    + apply (basic_set_operation_after_choice _ [0x18]); [one_instruction|reflexivity|cbn; lia].
    + apply (basic_set_operation_after_choice _ []); [one_instruction|reflexivity|cbn; lia].
  - intros mode direction. unfold setEntryMode_ST7920.
    destruct (mode =? "C")%char, (mode =? "D")%char, (direction =? "R")%char,
             (direction =? "L")%char; cbn [andb].
    all: first
      [ apply (basic_set_operation_after_choice _ [0x06]); [one_instruction|reflexivity|cbn; lia]
      | apply (basic_set_operation_after_choice _ [0x04]); [one_instruction|reflexivity|cbn; lia]
      | apply (basic_set_operation_after_choice _ [0x05]); [one_instruction|reflexivity|cbn; lia]
      | apply (basic_set_operation_after_choice _ [0x07]); [one_instruction|reflexivity|cbn; lia]
      | apply (basic_set_operation_after_choice _ []); [one_instruction|reflexivity|cbn; lia] ].
Qed.

(** X17: with a direction other than 'R' and 'L', [moveCursor_ST7920] and
    [shiftDisplay_ST7920] do what [chooseInstructionSet_ST7920 'B'] does
    and nothing more: no shift instruction is delivered. *)
Theorem moveCursor_shiftDisplay_other_direction (direction : ascii) (g : globals) :
  direction <> "R"%char -> direction <> "L"%char ->
  exists (g' : globals) (t : list event),
    chooseInstructionSet_ST7920 "B" g = Some (tt, g', t) /\
    moveCursor_ST7920 direction g = Some (tt, g', t) /\
    shiftDisplay_ST7920 direction g = Some (tt, g', t).
Proof.
  intros HR HL. apply Ascii.eqb_neq in HR, HL.
  unfold moveCursor_ST7920, shiftDisplay_ST7920, bind. rewrite HR, HL.
  rewrite chooseInstructionSet_Basic.
  destruct (instructionSet_ST7920 g =? "E")%char; eexists _, _;
    cbn [ret]; rewrite ?app_nil_r; repeat split.
Qed.

Lemma moveCursor_shiftDisplay_other_direction_witness :
  exists (g' : globals) (t : list event),
    chooseInstructionSet_ST7920 "B" (with_instructionSet "E" startup) = Some (tt, g', t) /\
    moveCursor_ST7920 "U" (with_instructionSet "E" startup) = Some (tt, g', t) /\
    shiftDisplay_ST7920 "U" (with_instructionSet "E" startup) = Some (tt, g', t).
Proof.
  apply (moveCursor_shiftDisplay_other_direction "U" (with_instructionSet "E" startup));
    discriminate.
Defined.

(** X18: with a mode other than 'C' and 'D', or a direction other than 'R'
    and 'L', [setEntryMode_ST7920] does what
    [chooseInstructionSet_ST7920 'B'] does and nothing more. *)
Theorem setEntryMode_other_arguments (mode direction : ascii) (g : globals) :
  (mode <> "C"%char /\ mode <> "D"%char) \/
  (direction <> "R"%char /\ direction <> "L"%char) ->
  exists (g' : globals) (t : list event),
    chooseInstructionSet_ST7920 "B" g = Some (tt, g', t) /\
    setEntryMode_ST7920 mode direction g = Some (tt, g', t).
Proof.
  intros H.
  assert (Hnone :
    (if (mode =? "C")%char && (direction =? "R")%char then sendInstruction_ST7920 0x06
     else if (mode =? "C")%char && (direction =? "L")%char then sendInstruction_ST7920 0x04
     else if (mode =? "D")%char && (direction =? "R")%char then sendInstruction_ST7920 0x05
     else if (mode =? "D")%char && (direction =? "L")%char then sendInstruction_ST7920 0x07
     else ret tt) = ret tt).
  { destruct H as [[H1 H2] | [H1 H2]]; apply Ascii.eqb_neq in H1, H2; rewrite H1, H2;
      cbn [andb]; rewrite ?andb_false_r; reflexivity. }
  unfold setEntryMode_ST7920, bind. rewrite Hnone, chooseInstructionSet_Basic.
  destruct (instructionSet_ST7920 g =? "E")%char; eexists _, _;
    cbn [ret]; rewrite ?app_nil_r; repeat split.
Qed.

Lemma setEntryMode_other_arguments_witness :
  exists (g' : globals) (t : list event),
    chooseInstructionSet_ST7920 "B" startup = Some (tt, g', t) /\
    setEntryMode_ST7920 "C" "U" startup = Some (tt, g', t).
Proof.
  apply (setEntryMode_other_arguments "C" "U" startup).
  right. split; discriminate.
Defined.

(** ** More on the cursor and the display flags *)

(** X19: over the positions 0 to 31 the address [setCursor_ST7920] sets is
    its own inverse: the position whose address is [a] is the address of
    position [a].  With C4 this makes it a permutation of [0, 31]. *)
Theorem setCursor_involution (p : Z) (g : globals) :
  0 <= p <= 31 ->
  exists a : Z,
    DDRAM_address_set g p = Some a /\
    DDRAM_address_set g a = Some p.
Proof.
  intros Hp.
  destruct (setCursor_sends p g Hp) as (a & Hrun & Ha & A1 & A2 & A3).
  destruct (setCursor_sends a g Ha) as (b & Hrun' & Hb & B1 & B2 & B3).
  exists a. rewrite (DDRAM_address_set_sends p a g Ha Hrun).
  rewrite (DDRAM_address_set_sends a b g Hb Hrun').
  split; [reflexivity|]. f_equal. lia.
Qed.

Lemma setCursor_involution_witness :
  exists a : Z,
    DDRAM_address_set startup 10 = Some a /\
    DDRAM_address_set startup a = Some 10.
Proof. apply (setCursor_involution 10 startup). lia. Defined.

(** X20: for any argument [setCursor_ST7920] changes no variable and
    delivers either nothing or one set-DDRAM-address instruction with an
    address in [0, 31]; it never sends an address from 32 to 63. *)
Theorem setCursor_any_argument (arg : Z) (g : globals) :
  exists (t : list event) (l : list Z),
    setCursor_ST7920 arg g = Some (tt, g, t) /\
    instructions t = Some l /\
    (l = [] \/ exists a : Z, 0 <= a <= 31 /\ l = [0x80 + a]).
Proof.
  destruct (instructions_cursor_events arg) as (l & Hl & _ & Hle & Hgt).
  exists (cursor_events arg), l. split; [apply setCursor_events|]. split; [exact Hl|].
  destruct (Z_le_gt_dec (to_byte arg) 31) as [H|H].
  - right. destruct (Hle H) as (a & -> & Ha). exists a. split; [|reflexivity].
    pose proof (to_byte_range arg) as Hq.
    destruct (setCursor_sends (to_byte arg) startup ltac:(lia)) as (a' & Hrun & Ha' & _).
    rewrite (DDRAM_address_set_sends _ a' startup Ha' Hrun) in Ha.
    injection Ha as <-. exact Ha'.
  - left. apply Hgt. lia.
Qed.

(** X21: two calls of [setDisplayStatus_ST7920] for the same option leave
    the variables as the second call alone does. *)
Theorem setDisplayStatus_last_wins (option : ascii) (first second : bool) (g : globals) :
  exists (g' : globals) (t1 t2 : list event),
    (setDisplayStatus_ST7920 option first ;; setDisplayStatus_ST7920 option second) g =
      Some (tt, g', t1) /\
    setDisplayStatus_ST7920 option second g = Some (tt, g', t2).
Proof.
  destruct (setDisplayStatus_run option first g) as (i1 & Hrun1 & _).
  destruct (setDisplayStatus_run option second g) as (i2 & Hrun2 & _).
  unfold bind. rewrite Hrun1, Hrun2.
  match goal with |- context [setDisplayStatus_ST7920 option second ?g1] =>
    destruct (setDisplayStatus_run option second g1) as (i3 & Hrun3 & _); rewrite Hrun3
  end.
  eexists _, _, _. split; [reflexivity|]. f_equal. f_equal. f_equal.
  destruct g as [c d u b]. unfold flag_update. simpl_globals.
  destruct (c =? "E")%char eqn:E; simpl_globals;
    destruct (option =? "D")%char, (option =? "C")%char, (option =? "B")%char;
    simpl_globals; cbn [Ascii.eqb Bool.eqb]; rewrite ?E; reflexivity.
Qed.

(** X9: for a single character at row 0, column 0,
    [printHalfCharacters_ST7920] delivers the address instruction for
    address 0, one instruction with RS set carrying the character code in
    DB7-DB0, and a space; RW is set in the character's instruction exactly
    when [char] is signed and the code is 128 or more. *)
Theorem printHalfCharacters_one_character (char_is_signed : bool) (c : ascii) (g : globals) :
  exists (t : list event) (i : Z),
    printHalfCharacters_ST7920 char_is_signed [c] 1 0 0 g = Some (tt, g, t) /\
    instructions t = Some [0x80; i; 0x220] /\
    Z.testbit i 9 = true /\
    Z.testbit i 8 = char_is_signed && (128 <=? Z.of_N (N_of_ascii c)) /\
    i mod 256 = Z.of_N (N_of_ascii c).
Proof.
  exists (cursor_events 0 ++ padding 0
          ++ half_loop_events char_is_signed [c] 0 ++ padding 1),
         (half_code char_is_signed c).
  split.
  - apply (printHalfCharacters_run char_is_signed [c] 1 0 0 g); [lia|cbn; lia].
  - destruct char_is_signed, c as [[] [] [] [] [] [] [] []]; repeat split.
Qed.
